(** * Water production dashboard: the load / filter / aggregate pipeline

    A shallow embedding of [streamlit_app.py].  The script is a straight
    line of pandas calls wrapped in Streamlit widgets, so the development has
    four layers:

    - [pd]: the pandas operations the script calls (frames, column lookup,
      [isin], [unique], boolean indexing, [dropna], [set_index], [rename],
      [reset_index], [head], [read_csv], [to_datetime]);
    - [np]: what the library computes from numbers ([sum], [mean], the
      division, the number formats), as a parameter;
    - [st]: the Streamlit side: the [cache_data] memo table, the widgets
      whose value comes from the user, and the trace of display calls;
    - the script itself ([load_data], the selectors, the metrics block and
      the raw-data block), followed by the properties of the pipeline.

    A number cell holds its exact value as a rational ([Qc]); a missing value
    is [VNaN] (or [VNaT] in a datetime column).  What the library computes
    from the numbers of a column (the machine arithmetic of [sum] and
    [mean], the division, the rendering of an f-string) is a parameter of
    the script, the kernel [np.kernel]. *)

From Stdlib Require Import QArith Qcanon Ascii String.
From stdpp Require Import base numbers list strings pretty gmap.

Local Open Scope string_scope.
Local Open Scope list_scope.

(** ** Exceptions and the error monad *)

Inductive exn_class :=
| FileNotFoundError
| KeyError
| ValueError
| TypeError
| OtherError (name : string).

Record exn := mkExn { exn_kind : exn_class; exn_str : string }.

Inductive result (A : Type) :=
| Ok (a : A)
| Raise (e : exn).
Arguments Ok {A} a.
Arguments Raise {A} e.

#[global] Instance result_bind : MBind result := λ A B k m,
  match m with
  | Ok a => k a
  | Raise e => Raise e
  end.

#[global] Instance result_ret : MRet result := λ A a, Ok a.

#[global] Instance result_fmap : FMap result := λ A B f m,
  match m with
  | Ok a => Ok (f a)
  | Raise e => Raise e
  end.

(** ** The pandas layer *)

Module pd.

Record Timestamp := mkTimestamp { year : Z; month : Z; day : Z }.

Inductive value :=
| VStr (s : string)
| VNum (q : Qc)
| VNaN
| VTime (t : Timestamp)
| VNaT.

#[global] Instance Timestamp_eq_dec : EqDecision Timestamp.
Proof. solve_decision. Defined.

#[global] Instance value_eq_dec : EqDecision value.
Proof. solve_decision. Defined.

(** [pd.isna] on one cell. *)
Definition isna (v : value) : bool :=
  match v with
  | VNaN | VNaT => true
  | _ => false
  end.

(** A frame: the name of the index, the column labels and the rows, each an
    index label with one cell per column.  A [Series] taken out of a frame
    keeps the frame's row order; every Series the script combines comes from
    the same frame, so they are aligned position by position. *)
Record DataFrame := mkDataFrame {
  index_name : option string;
  columns : list string;
  rows : list (value * list value)
}.

Abbreviation Series := (list value).

(** Position of a column label, the first one if the label is repeated. *)
Definition get_loc (name : string) (cols : list string) : option nat :=
  fst <$> list_find (fun c => c = name) cols.

Definition cell (i : nat) (r : value * list value) : value :=
  default VNaN (r.2 !! i).

(** [df[name]]: the column as a Series, [KeyError] if there is none. *)
Definition getitem (df : DataFrame) (name : string) : result Series :=
  match get_loc name (columns df) with
  | Some i => Ok (cell i <$> rows df)
  | None => Raise (mkExn KeyError name)
  end.

(** [s.isin(values)]: a missing value matches a missing value, as in the
    hash table pandas uses. *)
Definition isin (s : Series) (values : list value) : list bool :=
  (fun v => bool_decide (v ∈ values)) <$> s.

(** [m1 & m2] on boolean Series. *)
Definition mask_and (m1 m2 : list bool) : list bool := zip_with andb m1 m2.

(** [df[mask]]: the rows at which the mask holds. *)
Definition getitem_mask (df : DataFrame) (mask : list bool) : DataFrame :=
  {| index_name := index_name df;
     columns := columns df;
     rows := fst <$> filter (fun rb => rb.2 = true) (zip (rows df) mask) |}.

(** [s.unique()]: the distinct values in order of first appearance; [seen]
    is the table of values already emitted. *)
Fixpoint unique_from (seen : list value) (s : Series) : list value :=
  match s with
  | [] => []
  | v :: s' =>
      if decide (v ∈ seen) then unique_from seen s'
      else v :: unique_from (v :: seen) s'
  end.

Definition unique (s : Series) : list value := unique_from [] s.

(** [df.dropna(subset=[name])]. *)
Definition dropna (df : DataFrame) (name : string) : result DataFrame :=
  match get_loc name (columns df) with
  | Some i =>
      Ok {| index_name := index_name df;
            columns := columns df;
            rows := filter (fun r => isna (cell i r) = false) (rows df) |}
  | None => Raise (mkExn KeyError name)
  end.

(** [df.set_index(name)]: the column becomes the index and leaves the
    columns. *)
Definition set_index (df : DataFrame) (name : string) : result DataFrame :=
  match get_loc name (columns df) with
  | Some i =>
      Ok {| index_name := Some name;
            columns := delete i (columns df);
            rows := (fun r => (cell i r, delete i r.2)) <$> rows df |}
  | None => Raise (mkExn KeyError ("None of ['" +:+ name +:+ "'] are in the columns"))
  end.

(** [df.rename(columns=mapping)]: labels outside the mapping are kept. *)
Definition rename (df : DataFrame) (mapping : gmap string string) : DataFrame :=
  {| index_name := index_name df;
     columns := (fun c => default c (mapping !! c)) <$> columns df;
     rows := rows df |}.

(** [df.empty]: some axis has length 0. *)
Definition empty (df : DataFrame) : bool :=
  bool_decide (rows df = []) || bool_decide (columns df = []).

(** [df.head(n)]. *)
Definition head (n : nat) (df : DataFrame) : DataFrame :=
  {| index_name := index_name df;
     columns := columns df;
     rows := take n (rows df) |}.

(** [df.reset_index()]: the index comes back as the first column and the
    rows are numbered from 0. *)
Definition reset_index (df : DataFrame) : DataFrame :=
  {| index_name := None;
     columns := default "index" (index_name df) :: columns df;
     rows := imap (fun i r => (VNum (Qc_of_Z (Z.of_nat i)), r.1 :: r.2)) (rows df) |}.

(** [df[name]] as pandas builds it: the columns that carry the label, in
    order.  One column is a Series; several, for a repeated label, are a
    frame; [KeyError] if there is none. *)
Definition positions (name : string) (cols : list string) : list nat :=
  omap id (imap (fun k c => if decide (c = name) then Some k else None) cols).

Definition select (df : DataFrame) (name : string) : result (list Series) :=
  match positions name (columns df) with
  | [] => Raise (mkExn KeyError name)
  | ks => Ok ((fun k => cell k <$> rows df) <$> ks)
  end.

(** *** Reading a delimited file

    What the tokenizer and the type inference of [read_csv] make of a file is
    taken as given: either reading raises, or there is a header and one list
    of typed cells per line (text cells for a column of dates that is still
    to be parsed, [VNaN] for an empty field). *)
Inductive file :=
| Unreadable (e : exn)
| Delimited (header : list string) (records : list (list value)).

(** The width of the table is set by the header and the first data line,
    whichever has more fields.  A line with fewer fields is filled up with
    NaN; a later line with more is a tokenizing error. *)
Definition table_width (header : list string) (records : list (list value))
  : nat :=
  match records with
  | [] => length header
  | r :: _ => length header `max` length r
  end.

Definition padded (width : nat) (r : list value) : list value :=
  r ++ replicate (width - length r) VNaN.

Definition pad_record (width : nat) (r : list value) : result (list value) :=
  if decide (length r ≤ width)%nat
  then Ok (padded width r)
  else Raise (mkExn (OtherError "ParserError") "Error tokenizing data").

Fixpoint pad_records (width : nat) (rs : list (list value))
  : result (list (list value)) :=
  match rs with
  | [] => Ok []
  | r :: rs' =>
      r' ← pad_record width r ;
      rs'' ← pad_records width rs' ;
      Ok (r' :: rs'')
  end.

(** The rows of the frame: the fields beyond the labels of the header, at
    the front of each line, are the index (its first field stands for it;
    [set_index] replaces it anyway); without such fields the index is the
    default [RangeIndex]. *)
Definition raw_rows (leading : nat) (rs : list (list value))
  : list (value * list value) :=
  imap (fun i r =>
          (match leading with
           | O => VNum (Qc_of_Z (Z.of_nat i))
           | S _ => default VNaN (r !! 0%nat)
           end,
           drop leading r)) rs.

(** Replace the cells of column [i] by the values of [s], row by row. *)
Definition set_column (i : nat) (s : Series) (df : DataFrame) : DataFrame :=
  {| index_name := index_name df;
     columns := columns df;
     rows := zip_with (fun r v => (r.1, <[i:=v]> r.2)) (rows df) s |}.

(** One entry of [parse_dates]: the column is handed to [date_parser] as a
    whole and replaced by what comes back. *)
Definition parse_date_column (date_parser : Series → Series) (df : DataFrame)
    (name : string) : result DataFrame :=
  match get_loc name (columns df) with
  | Some i => Ok (set_column i (date_parser (cell i <$> rows df)) df)
  | None =>
      Raise (mkExn ValueError
               ("Missing column provided to 'parse_dates': '" +:+ name +:+ "'"))
  end.

Fixpoint parse_date_columns (date_parser : Series → Series) (df : DataFrame)
    (names : list string) : result DataFrame :=
  match names with
  | [] => Ok df
  | name :: names' =>
      df' ← parse_date_column date_parser df name ;
      parse_date_columns date_parser df' names'
  end.

(** [pd.read_csv(path, parse_dates=..., date_parser=...)] over a file system
    that maps the paths that exist to their content. *)
Definition read_csv (fs : gmap string file) (path : string)
    (parse_dates : list string) (date_parser : Series → Series)
  : result DataFrame :=
  match fs !! path with
  | None =>
      Raise (mkExn FileNotFoundError
               ("[Errno 2] No such file or directory: '" +:+ path +:+ "'"))
  | Some (Unreadable e) => Raise e
  | Some (Delimited header records) =>
      let width := table_width header records in
      rs ← pad_records width records ;
      parse_date_columns date_parser
        {| index_name := None;
           columns := header;
           rows := raw_rows (width - length header) rs |}
        parse_dates
  end.

(** *** Datetime parsing

    [pd.to_datetime(x, format=..., errors='coerce')] on a Series: a text cell
    goes through the format parser, a datetime stays, and everything that
    does not parse (a missing cell, a number, text that fails the format)
    becomes NaT.  The format parser [strptime format text] is the library's;
    the script is embedded for any such parser, and [pd.strptime] below is
    the one used where a concrete parser is needed. *)
Definition to_datetime_scalar (strptime : string → string → option Timestamp)
    (format : string) (v : value) : value :=
  match v with
  | VStr s => from_option VTime VNaT (strptime format s)
  | VTime t => VTime t
  | VNum _ | VNaN | VNaT => VNaT
  end.

Definition to_datetime_coerce (strptime : string → string → option Timestamp)
    (x : Series) (format : string) : Series :=
  to_datetime_scalar strptime format <$> x.

Definition digit (a : ascii) : option Z :=
  let n := Z.of_nat (nat_of_ascii a) in
  if decide (48 ≤ n ≤ 57)%Z then Some (n - 48)%Z else None.

(** Exactly [n] digits. *)
Fixpoint digits (n : nat) (acc : Z) (s : string) : option (Z * string) :=
  match n with
  | O => Some (acc, s)
  | S n' =>
      match s with
      | String a s' => d ← digit a ; digits n' (10 * acc + d)%Z s'
      | EmptyString => None
      end
  end.

(** One or two digits with a value between [lo] and [hi], two when they
    fit: the leading zero of a month or a day is optional when parsing. *)
Definition one_or_two_digits (lo hi : Z) (s : string) : option (Z * string) :=
  match s with
  | EmptyString => None
  | String a s1 =>
      d1 ← digit a ;
      let one := if decide (lo ≤ d1 ≤ hi)%Z then Some (d1, s1) else None in
      match s1 with
      | EmptyString => one
      | String b s2 =>
          match digit b with
          | Some d2 =>
              if decide (lo ≤ 10 * d1 + d2 ≤ hi)%Z
              then Some (10 * d1 + d2, s2)%Z
              else one
          | None => one
          end
      end
  end.

Definition is_leap (y : Z) : bool :=
  bool_decide (y mod 4 = 0)%Z
  && (negb (bool_decide (y mod 100 = 0)%Z) || bool_decide (y mod 400 = 0)%Z).

Definition days_in_month (y m : Z) : Z :=
  if decide (m = 2)%Z then (if is_leap y then 29 else 28)%Z
  else if decide (m ∈ [4; 6; 9; 11]%Z) then 30%Z
  else 31%Z.

(** The text against the format, directive by directive: [%Y] is four
    digits, [%m] a month and [%d] a day of one or two digits, any other
    character stands for itself, and nothing may be left over.  The fields
    start at 1 January 1900.  Directives the script does not use are not
    modelled. *)
Fixpoint match_format (format text : string) (ymd : Z * Z * Z)
  : option (Z * Z * Z) :=
  match format with
  | EmptyString => if decide (text = "") then Some ymd else None
  | String "%"%char (String c format') =>
      if decide (c = "Y"%char) then
        '(y, text') ← digits 4 0 text ;
        match_format format' text' (y, ymd.1.2, ymd.2)
      else if decide (c = "m"%char) then
        '(m, text') ← one_or_two_digits 1 12 text ;
        match_format format' text' (ymd.1.1, m, ymd.2)
      else if decide (c = "d"%char) then
        '(d, text') ← one_or_two_digits 1 31 text ;
        match_format format' text' (ymd.1.1, ymd.1.2, d)
      else None
  | String c format' =>
      match text with
      | String c' text' =>
          if decide (c = c') then match_format format' text' ymd else None
      | EmptyString => None
      end
  end.

(** The days a nanosecond timestamp can hold at midnight: 22 September
    1677 to 11 April 2262. *)
Definition day_number (y m d : Z) : Z := ((y * 16 + m) * 32 + d)%Z.

Definition in_ns_range (y m d : Z) : bool :=
  bool_decide (day_number 1677 9 22 ≤ day_number y m d ≤ day_number 2262 4 11)%Z.

(** The format parser as Python documents [strptime] (and pandas follows
    for these directives): the fields must match the format and name a day
    of the calendar that a nanosecond timestamp can hold. *)
Definition strptime (format text : string) : option Timestamp :=
  '(y, m, d) ← match_format format text (1900, 1, 1)%Z ;
  if decide (1 ≤ d ≤ days_in_month y m ∧ in_ns_range y m d = true)%Z
  then Some (mkTimestamp y m d)
  else None.

(** The format as the specification words it: four digits, a dash, two
    digits, a dash, two digits and nothing else, naming a day of the
    calendar. *)
Definition dash (s : string) : option string :=
  match s with
  | String c s' => if decide (c = "-"%char) then Some s' else None
  | EmptyString => None
  end.

Definition strict_ymd (s : string) : option Timestamp :=
  '(y, s1) ← digits 4 0 s ;
  s2 ← dash s1 ;
  '(m, s3) ← digits 2 0 s2 ;
  s4 ← dash s3 ;
  '(d, s5) ← digits 2 0 s4 ;
  if decide (s5 = "" ∧ 1 ≤ m ≤ 12 ∧ 1 ≤ d ≤ days_in_month y m)%Z
  then Some (mkTimestamp y m d)
  else None.

End pd.

(** ** The Streamlit layer *)

Module st.

(** The chart handed to [st.altair_chart]: the data and the encoding. *)
Record Chart := mkChart {
  chart_data : pd.DataFrame;
  x : string;
  y : string;
  color : string;
  tooltip : list string;
  chart_title : string
}.

(** The display calls of one run of the script, in order.  A metric has
    its label and the text its f-string rendered. *)
Inductive event :=
| ev_set_page_config (layout : string)
| ev_error (body : string)
| ev_title (body : string)
| ev_markdown (body : string)
| ev_sidebar_header (body : string)
| ev_multiselect (label : string) (options default : list pd.value)
| ev_columns (n : nat)
| ev_metric (column : nat) (label value : string)
| ev_subheader (body : string)
| ev_selectbox (label : string) (options : list string)
| ev_altair_chart (chart : Chart)
| ev_warning (body : string)
| ev_checkbox (label : string)
| ev_write (df : pd.DataFrame).

(** The display calls of the metrics-and-chart branch. *)
Definition shows_metrics (e : event) : bool :=
  match e with
  | ev_columns _ | ev_metric _ _ _ | ev_selectbox _ _ | ev_altair_chart _ =>
      true
  | _ => false
  end.

(** A run ends early through [st.stop()] or through an exception nobody
    catches. *)
Inductive halt :=
| Stopped
| Uncaught (e : exn).

(** A piece of script: what it displayed, and its value unless it halted. *)
Definition script (A : Type) : Type := (list event * (halt + A))%type.

#[global] Instance script_ret : MRet script := λ A a, ([], inr a).

#[global] Instance script_bind : MBind script := λ A B k m,
  match m.2 with
  | inl h => (m.1, inl h)
  | inr a => (m.1 ++ (k a).1, (k a).2)
  end.

Definition emit (e : event) : script unit := ([e], inr tt).

Definition stop {A} : script A := ([], inl Stopped).

(** An exception outside any [try] ends the run. *)
Definition lift {A} (r : result A) : script A :=
  match r with
  | Ok a => ([], inr a)
  | Raise e => ([], inl (Uncaught e))
  end.

(** What the user did with the widgets before this run: for a multiselect
    the positions picked among the options, for the selectbox the position
    picked; [None] is a widget left alone. *)
Record user := mkUser {
  countries_picked : option (list nat);
  sources_picked : option (list nat);
  metric_picked : option nat;
  show_raw_data : bool
}.

Definition untouched : user := mkUser None None None false.

(** [st.multiselect(label, options, default)]. *)
Definition multiselect (label : string) (options default : list pd.value)
    (picked : option (list nat)) : script (list pd.value) :=
  emit (ev_multiselect label options default) ;;
  mret (match picked with
        | None => default
        | Some positions => omap (fun i => options !! i) positions
        end).

(** [st.selectbox(label, options)]: the first option unless one is picked. *)
Definition selectbox (label : string) (options : list string)
    (picked : option nat) : script string :=
  emit (ev_selectbox label options) ;;
  mret (default "" (options !! default 0%nat picked)).

Definition checkbox (label : string) (checked : bool) : script bool :=
  emit (ev_checkbox label) ;; mret checked.

(** [@st.cache_data] on a function without arguments: one memo entry, filled
    by the first call that returns; a call that raises stores nothing.
    [executions] counts the runs of the function body. *)
Record cache (A : Type) := mkCache { memo : option A; executions : nat }.
Arguments mkCache {A} memo executions.
Arguments memo {A} c.
Arguments executions {A} c.

Definition cold {A} : cache A := mkCache None 0.

Definition cache_data {A} (f : unit → result A) (c : cache A)
  : result A * cache A :=
  match memo c with
  | Some a => (Ok a, c)
  | None =>
      match f () with
      | Ok a => (Ok a, mkCache (Some a) (S (executions c)))
      | Raise e => (Raise e, mkCache None (S (executions c)))
      end
  end.

End st.

(** ** The numeric kernel

    What [sum()], [mean()], [/] and the format specification of an f-string
    compute is numpy's and Python's: an int64 sum wraps around, a float64
    sum rounds, in the order the library adds, a text column is
    concatenated, and a frame (a repeated label) gives one result per
    column, which no number format renders.  The script is embedded over
    any such kernel: [scalar] is the kind of object a reduction returns. *)

Module np.

Record kernel := mkKernel {
  scalar : Type;
  (** [df[label].sum()] and [df[label].mean()] on the columns selected *)
  sum : list (list pd.value) → result scalar;
  mean : list (list pd.value) → result scalar;
  (** [x / d] *)
  truediv : scalar → Z → result scalar;
  (** [format(x, spec)], the replacement field of an f-string *)
  format : scalar → string → result string
}.

End np.

(** ** The script *)

Definition FILE_PATH : string := "data/production_basic_aggregated.csv".
Definition DATE_COLUMN : string := "date".
Definition METRIC_COLUMNS : list string :=
  ["production_m3"; "production_m3_per_hour"].

(** The [columns=] dictionary of the rename in [load_data]. *)
Definition display_names : gmap string string :=
  list_to_map
    [("production_m3", "Production (m³)");
     ("service_hours", "Service Hours");
     ("production_m3_per_hour", "Efficiency (m³/hour)")].

Section script.

(** The library's format parser: [strptime format text] is the timestamp the
    text denotes under the format, [None] when it does not match. *)
Variable strptime : string → string → option pd.Timestamp.

(** The library's arithmetic and number formatting. *)
Variable K : np.kernel.

(** The [date_parser] lambda. *)
Definition date_parser (x : pd.Series) : pd.Series :=
  pd.to_datetime_coerce strptime x "%Y-%m-%d".

(** The date cell of a record, at position [i], after [date_parser]. *)
Definition parsed_date (i : nat) (r : list pd.value) : pd.value :=
  pd.to_datetime_scalar strptime "%Y-%m-%d" (default pd.VNaN (r !! i)).

(** The body of [load_data], without its decorator. *)
Definition load_data (fs : gmap string pd.file) : result pd.DataFrame :=
  data ← pd.read_csv fs FILE_PATH [DATE_COLUMN] date_parser ;
  data ← pd.dropna data DATE_COLUMN ;
  data ← pd.set_index data DATE_COLUMN ;
  Ok (pd.rename data display_names).

(** [load_data] as the script sees it, behind [@st.cache_data]. *)
Definition load_data_cached (fs : gmap string pd.file)
    (c : st.cache pd.DataFrame) : result pd.DataFrame * st.cache pd.DataFrame :=
  st.cache_data (fun _ => load_data fs) c.

(** The [try] around the call: either handler reports and stops. *)
Definition load_or_stop (r : result pd.DataFrame) : st.script pd.DataFrame :=
  match r with
  | Ok df => mret df
  | Raise e =>
      match exn_kind e with
      | FileNotFoundError =>
          st.emit (st.ev_error
            ("Error: The file '" +:+ FILE_PATH +:+
             "' was not found. Please ensure your data is saved correctly.")) ;;
          st.stop
      | _ =>
          st.emit (st.ev_error
            ("An error occurred while loading or parsing the data: " +:+
             exn_str e)) ;;
          st.stop
      end
  end.

(** [df['country'].unique()]. *)
Definition countries (df : pd.DataFrame) : result (list pd.value) :=
  pd.unique <$> pd.getitem df "country".

(** [df[df['country'].isin(selected_countries)]]. *)
Definition filtered_by_country (df : pd.DataFrame)
    (selected_countries : list pd.value) : result pd.DataFrame :=
  country ← pd.getitem df "country" ;
  Ok (pd.getitem_mask df (pd.isin country selected_countries)).

(** The options of the source selector. *)
Definition sources (df : pd.DataFrame) (selected_countries : list pd.value)
  : result (list pd.value) :=
  by_country ← filtered_by_country df selected_countries ;
  pd.unique <$> pd.getitem by_country "source".

(** The frame both selections leave. *)
Definition filtered_df (df : pd.DataFrame)
    (selected_countries selected_sources : list pd.value)
  : result pd.DataFrame :=
  country ← pd.getitem df "country" ;
  source ← pd.getitem df "source" ;
  Ok (pd.getitem_mask df
        (pd.mask_and (pd.isin country selected_countries)
                     (pd.isin source selected_sources))).

(** The three key metrics. *)
Definition total_production (fdf : pd.DataFrame) : result (np.scalar K) :=
  production ← pd.select fdf "Production (m³)" ;
  total ← np.sum K production ;
  np.truediv K total 1000000.

Definition avg_efficiency (fdf : pd.DataFrame) : result (np.scalar K) :=
  efficiency ← pd.select fdf "Efficiency (m³/hour)" ;
  np.mean K efficiency.

Definition total_service_hours (fdf : pd.DataFrame) : result (np.scalar K) :=
  hours ← pd.select fdf "Service Hours" ;
  np.sum K hours.

Definition metric_options : list string :=
  ["Production (m³)"; "Efficiency (m³/hour)"; "Service Hours"].

(** The branch taken when the filtered frame is not empty: the three
    metrics are computed, then displayed one after the other, each f-string
    rendered just before its display, then the chart. *)
Definition metrics_and_chart (fdf : pd.DataFrame) (u : st.user)
  : st.script unit :=
  st.emit (st.ev_columns 3) ;;
  production ← st.lift (total_production fdf) ;
  efficiency ← st.lift (avg_efficiency fdf) ;
  hours ← st.lift (total_service_hours fdf) ;
  text1 ← st.lift (np.format K production ",.2f") ;
  st.emit (st.ev_metric 1 "Total Production" (text1 +:+ " M m³")) ;;
  text2 ← st.lift (np.format K efficiency ",.2f") ;
  st.emit (st.ev_metric 2 "Average Efficiency" (text2 +:+ " m³/hour")) ;;
  text3 ← st.lift (np.format K hours ",.0f") ;
  st.emit (st.ev_metric 3 "Total Service Hours" (text3 +:+ " hours")) ;;
  st.emit (st.ev_markdown "---") ;;
  st.emit (st.ev_subheader "Production and Efficiency Over Time") ;;
  selected_metric ←
    st.selectbox "Select Metric to Visualize" metric_options (st.metric_picked u) ;
  st.emit (st.ev_altair_chart
    {| st.chart_data := pd.reset_index fdf;
       st.x := DATE_COLUMN;
       st.y := selected_metric;
       st.color := "source";
       st.tooltip := [DATE_COLUMN; "country"; "source"; selected_metric];
       st.chart_title := selected_metric +:+ " by Source Over Time" |}).

(** The optional raw-data table at the end of the page. *)
Definition raw_data (fdf : pd.DataFrame) (u : st.user) : st.script unit :=
  checked ← st.checkbox "Show Raw Data" (st.show_raw_data u) ;
  if checked : bool
  then st.emit (st.ev_subheader "Raw Data (First 100 rows)") ;;
       st.emit (st.ev_write (pd.head 100 fdf))
  else mret tt.

(** The header and the sidebar selectors, down to the filtered frame. *)
Definition selectors (df : pd.DataFrame) (u : st.user)
  : st.script pd.DataFrame :=
  st.emit (st.ev_title "Water Production Dashboard: Country and Source Analysis") ;;
  st.emit (st.ev_markdown
    "Analyzing daily production and efficiency metrics over time for water sources.") ;;
  st.emit (st.ev_sidebar_header "Filter Data") ;;
  all_countries ← st.lift (countries df) ;
  selected_countries ←
    st.multiselect "Select Country" all_countries all_countries
      (st.countries_picked u) ;
  offered ← st.lift (sources df selected_countries) ;
  selected_sources ←
    st.multiselect "Select Source" offered offered (st.sources_picked u) ;
  st.lift (filtered_df df selected_countries selected_sources).

(** The [if not filtered_df.empty: ... else: ...] of the main panel. *)
Definition metrics_or_warning (fdf : pd.DataFrame) (u : st.user)
  : st.script unit :=
  if negb (pd.empty fdf)
  then metrics_and_chart fdf u
  else st.emit (st.ev_warning
    "No data found for the selected filters. Please adjust your selections.").

(** Everything after the data is loaded. *)
Definition dashboard (df : pd.DataFrame) (u : st.user) : st.script unit :=
  fdf ← selectors df u ;
  metrics_or_warning fdf u ;;
  raw_data fdf u.

(** One run of the script: the display calls, how the run ended, and the
    memo table it leaves for the next run. *)
Definition run (fs : gmap string pd.file) (u : st.user)
    (c : st.cache pd.DataFrame) : st.script unit * st.cache pd.DataFrame :=
  let '(r, c') := load_data_cached fs c in
  (st.emit (st.ev_set_page_config "wide") ;;
   df ← load_or_stop r ;
   dashboard df u,
   c').

(** A session: the script runs again at every interaction, against the file
    system and the widget state of that moment. *)
Fixpoint session (steps : list (gmap string pd.file * st.user))
    (c : st.cache pd.DataFrame)
  : list (st.script unit) * st.cache pd.DataFrame :=
  match steps with
  | [] => ([], c)
  | (fs, u) :: steps' =>
      let '(out, c') := run fs u c in
      let '(outs, c'') := session steps' c' in
      (out :: outs, c'')
  end.

(** Successive calls of the memoized loader. *)
Fixpoint loads (fss : list (gmap string pd.file)) (c : st.cache pd.DataFrame)
  : list (result pd.DataFrame) * st.cache pd.DataFrame :=
  match fss with
  | [] => ([], c)
  | fs :: fss' =>
      let '(r, c') := load_data_cached fs c in
      let '(rs, c'') := loads fss' c' in
      (r :: rs, c'')
  end.

End script.

(** ** Vocabulary of the statements *)

(** The label a column of the file carries after [load_data]. *)
Definition display (c : string) : string :=
  if decide (c = "production_m3") then "Production (m³)"
  else if decide (c = "service_hours") then "Service Hours"
  else if decide (c = "production_m3_per_hour") then "Efficiency (m³/hour)"
  else c.

(** The cells of a line of the file under the labels of the header: the
    line filled up to the width of the table, without the fields of the
    implicit index. *)
Definition cells (header : list string) (records : list (list pd.value))
    (r : list pd.value) : list pd.value :=
  drop (pd.table_width header records - length header)
    (pd.padded (pd.table_width header records) r).

(** Every row has one cell per column. *)
Definition rectangular (df : pd.DataFrame) : Prop :=
  Forall (fun r => length r.2 = length (pd.columns df)) (pd.rows df).

(** The columns of the metrics displayed, in the order of the display
    calls. *)
Definition metric_columns (t : list st.event) : list nat :=
  omap (fun e => match e with st.ev_metric c _ _ => Some c | _ => None end) t.

(** The metric displays among the display calls. *)
Definition is_metric (e : st.event) : bool :=
  match e with st.ev_metric _ _ _ => true | _ => false end.

Definition count_events (f : st.event → bool) (t : list st.event) : nat :=
  length (filter (fun e => f e = true) t).

(** The fields a chart encodes are columns of its data. *)
Definition chart_fields_exist (ch : st.Chart) : Prop :=
  Forall (fun c => c ∈ pd.columns (st.chart_data ch))
    (st.x ch :: st.y ch :: st.color ch :: st.tooltip ch).

(** The display calls every run of the dashboard starts with. *)
Definition page_header : list st.event :=
  [st.ev_title "Water Production Dashboard: Country and Source Analysis";
   st.ev_markdown
     "Analyzing daily production and efficiency metrics over time for water sources.";
   st.ev_sidebar_header "Filter Data"].

Definition no_data_warning : st.event :=
  st.ev_warning
    "No data found for the selected filters. Please adjust your selections.".

(** ** A kernel for the examples

    Exact arithmetic on the number cells of one column, and the rendering
    of the two format specifications of the script.  It stands for the
    library only where an example needs a concrete kernel, on columns of
    small integers, where int64 and float64 arithmetic give the same
    numbers; nothing is claimed of it elsewhere (it raises on a text
    column, which the library concatenates). *)

Module exact.

(** The one column of a selection; a frame has no single result. *)
Definition column (sel : list pd.Series) : result pd.Series :=
  match sel with
  | [s] => Ok s
  | _ => Raise (mkExn TypeError "one result per column")
  end.

(** The sum of the number cells, missing cells passed over. *)
Fixpoint nansum (acc : Qc) (s : pd.Series) : result Qc :=
  match s with
  | [] => Ok acc
  | pd.VNum q :: s' => nansum (acc + q)%Qc s'
  | pd.VNaN :: s' => nansum acc s'
  | _ :: _ => Raise (mkExn TypeError "unsupported operand type(s) for +")
  end.

Definition sum (sel : list pd.Series) : result pd.value :=
  s ← column sel ; t ← nansum 0%Qc s ; Ok (pd.VNum t).

Definition count (s : pd.Series) : nat :=
  length (filter (fun v => pd.isna v = false) s).

(** The sum of the cells present over their number, NaN when none is. *)
Definition mean (sel : list pd.Series) : result pd.value :=
  s ← column sel ;
  t ← nansum 0%Qc s ;
  Ok (match count s with
      | O => pd.VNaN
      | S _ as n => pd.VNum (t / Qc_of_Z (Z.of_nat n))%Qc
      end).

Definition truediv (x : pd.value) (d : Z) : result pd.value :=
  match x with
  | pd.VNum q => Ok (pd.VNum (q / Qc_of_Z d)%Qc)
  | pd.VNaN => Ok pd.VNaN
  | _ => Raise (mkExn TypeError "unsupported operand type(s) for /")
  end.

(** [|q| * 10^decimals] rounded to the nearest integer, ties to even. *)
Definition round_half_even (q : Qc) (decimals : nat) : Z :=
  let a := (Z.abs (Qnum q) * 10 ^ Z.of_nat decimals)%Z in
  let d := Zpos (Qden q) in
  let lo := (a / d)%Z in
  let r := (a mod d)%Z in
  if decide (2 * r < d)%Z then lo
  else if decide (d < 2 * r)%Z then (lo + 1)%Z
  else if Z.even lo then lo else (lo + 1)%Z.

(** A comma before every group of three digits, counted from the right;
    the digits come least significant first. *)
Fixpoint group3 (rev_digits : list ascii) (k : nat) : list ascii :=
  match rev_digits with
  | [] => []
  | c :: cs =>
      match k with
      | 3%nat => ","%char :: c :: group3 cs 1
      | _ => c :: group3 cs (S k)
      end
  end.

(** [format(q, ',.<decimals>f')]. *)
Definition render (q : Qc) (decimals : nat) : string :=
  let digits := list_ascii_of_string (pretty (Z.to_N (round_half_even q decimals))) in
  let digits := replicate (S decimals - length digits) "0"%char ++ digits in
  let whole := take (length digits - decimals) digits in
  let fraction := drop (length digits - decimals) digits in
  string_of_list_ascii
    ((if decide (Qnum q < 0)%Z then ["-"%char] else [])
     ++ match reverse whole with
        | [] => []
        | c :: cs => reverse (c :: group3 cs 1)
        end
     ++ match fraction with
        | [] => []
        | _ => "."%char :: fraction
        end).

Definition format (x : pd.value) (spec : string) : result string :=
  match x with
  | pd.VNum q =>
      if decide (spec = ",.2f") then Ok (render q 2)
      else if decide (spec = ",.0f") then Ok (render q 0)
      else Raise (mkExn ValueError "Invalid format specifier")
  | pd.VNaN => Ok "nan"
  | pd.VStr _ =>
      Raise (mkExn ValueError "Unknown format code 'f' for object of type 'str'")
  | _ => Raise (mkExn TypeError "unsupported format string")
  end.

Definition kernel : np.kernel :=
  {| np.scalar := pd.value;
     np.sum := sum;
     np.mean := mean;
     np.truediv := truediv;
     np.format := format |}.

End exact.

(** ** Running examples *)

Definition num (z : Z) : pd.value := pd.VNum (Qc_of_Z z).

(** A file of three lines, the second with the date [2023-13-40]. *)
Definition example_header : list string :=
  ["date"; "country"; "source"; "production_m3"; "service_hours";
   "production_m3_per_hour"].

Definition example_records : list (list pd.value) :=
  [ [pd.VStr "2023-01-01"; pd.VStr "CountryA"; pd.VStr "SourceX";
     num 1000000; num 5; num 10];
    [pd.VStr "2023-13-40"; pd.VStr "CountryA"; pd.VStr "SourceX";
     num 100; num 10; num 10];
    [pd.VStr "2023-01-02"; pd.VStr "CountryB"; pd.VStr "SourceY";
     num 2000000; num 7; num 20] ].

Definition example_fs : gmap string pd.file :=
  {[ FILE_PATH := pd.Delimited example_header example_records ]}.

Definition loaded_columns : list string :=
  ["country"; "source"; "Production (m³)"; "Service Hours";
   "Efficiency (m³/hour)"].

Definition jan (d : Z) : pd.value := pd.VTime (pd.mkTimestamp 2023 1 d).

(** The table the example file loads to. *)
Definition example_loaded : pd.DataFrame :=
  {| pd.index_name := Some "date";
     pd.columns := loaded_columns;
     pd.rows :=
       [ (jan 1, [pd.VStr "CountryA"; pd.VStr "SourceX";
                  num 1000000; num 5; num 10]);
         (jan 2, [pd.VStr "CountryB"; pd.VStr "SourceY";
                  num 2000000; num 7; num 20]) ] |}.

(** A file whose only line has the date [2023-1-5], and the table it loads
    to. *)
Definition one_digit_fs : gmap string pd.file :=
  {[ FILE_PATH :=
       pd.Delimited example_header
         [ [pd.VStr "2023-1-5"; pd.VStr "CountryA"; pd.VStr "SourceX";
            num 100; num 10; num 10] ] ]}.

Definition one_digit_loaded : pd.DataFrame :=
  {| pd.index_name := Some "date";
     pd.columns := loaded_columns;
     pd.rows :=
       [ (jan 5, [pd.VStr "CountryA"; pd.VStr "SourceX";
                  num 100; num 10; num 10]) ] |}.

(** A file with a date and a source column only. *)
Definition no_country_header : list string := ["date"; "source"].

Definition no_country_records : list (list pd.value) :=
  [ [pd.VStr "2023-01-01"; pd.VStr "SourceX"] ].

Definition no_country_fs : gmap string pd.file :=
  {[ FILE_PATH := pd.Delimited no_country_header no_country_records ]}.

(** The loaded example without its country column, and without its source
    column. *)
Definition example_no_country : pd.DataFrame :=
  {| pd.index_name := Some "date";
     pd.columns := ["source"; "Production (m³)"; "Service Hours";
                    "Efficiency (m³/hour)"];
     pd.rows :=
       [ (jan 1, [pd.VStr "SourceX"; num 1000000; num 5; num 10]) ] |}.

Definition example_no_source : pd.DataFrame :=
  {| pd.index_name := Some "date";
     pd.columns := ["country"; "Production (m³)"; "Service Hours";
                    "Efficiency (m³/hour)"];
     pd.rows :=
       [ (jan 1, [pd.VStr "CountryA"; num 1000000; num 5; num 10]) ] |}.

(** Rows (A,X), (A,Y), (B,X). *)
Definition example_table : pd.DataFrame :=
  {| pd.index_name := Some "date";
     pd.columns := loaded_columns;
     pd.rows :=
       [ (jan 1, [pd.VStr "A"; pd.VStr "X"; num 1; num 1; num 1]);
         (jan 1, [pd.VStr "A"; pd.VStr "Y"; num 2; num 1; num 2]);
         (jan 2, [pd.VStr "B"; pd.VStr "X"; num 3; num 1; num 3]) ] |}.

(** [n] copies of one row. *)
Definition tall_table (n : nat) : pd.DataFrame :=
  {| pd.index_name := Some "date";
     pd.columns := loaded_columns;
     pd.rows :=
       replicate n (jan 1, [pd.VStr "A"; pd.VStr "X"; num 1; num 1; num 1]) |}.

(** ** The error monad computes *)

Lemma bind_Ok {A B} (a : A) (k : A → result B) : (Ok a ≫= k) = k a.
Proof. done. Qed.

(** ** The script monad computes *)

Lemma sbind_value {A B} (t : list st.event) (a : A) (k : A → st.script B) :
  ((t, inr a) ≫= k) = (t ++ (k a).1, (k a).2).
Proof. done. Qed.

Lemma emit_then {A} (e : st.event) (m : st.script A) :
  (st.emit e ;; m) = (e :: m.1, m.2).
Proof. done. Qed.

(** ** Properties of the pandas layer *)

Section frames.

Implicit Types (df : pd.DataFrame) (r : pd.value * list pd.value).
Implicit Types (s : pd.Series) (v : pd.value).

Lemma getitem_loc df name i :
  pd.get_loc name (pd.columns df) = Some i →
  pd.getitem df name = Ok (pd.cell i <$> pd.rows df).
Proof. intros Hloc. unfold pd.getitem. by rewrite Hloc. Qed.

Lemma get_loc_Some name cols i :
  pd.get_loc name cols = Some i → cols !! i = Some name.
Proof.
  unfold pd.get_loc. intros H.
  destruct (list_find _ cols) as [[k c]|] eqn:E; simplify_eq/=.
  apply list_find_Some in E as (? & -> & _). done.
Qed.

Lemma get_loc_None name cols :
  pd.get_loc name cols = None ↔ name ∉ cols.
Proof.
  unfold pd.get_loc. rewrite fmap_None, list_find_None, Forall_forall.
  split.
  - intros H Hin. by apply (H name).
  - intros H c Hin ->. done.
Qed.

Lemma get_loc_elem_of name cols :
  name ∈ cols → ∃ i, pd.get_loc name cols = Some i.
Proof.
  intros Hin. destruct (pd.get_loc name cols) as [i|] eqn:E; [by eexists|].
  by apply get_loc_None in E.
Qed.

Lemma getitem_missing df name :
  name ∉ pd.columns df → pd.getitem df name = Raise (mkExn KeyError name).
Proof.
  intros Hn. unfold pd.getitem. apply get_loc_None in Hn. by rewrite Hn.
Qed.

Lemma positions_nil name cols :
  name ∉ cols → pd.positions name cols = [].
Proof.
  unfold pd.positions.
  assert (∀ g : nat → nat, name ∉ cols →
            omap id (imap (fun k c => if decide (c = name) then Some (g k) else None)
                       cols) = []) as H; [|apply (H id)].
  induction cols as [|c cols IH]; intros g Hn; [done|].
  apply not_elem_of_cons in Hn as [Hc Hn]. cbn [imap omap].
  rewrite decide_False by done. cbn. apply (IH (g ∘ S) Hn).
Qed.

Lemma select_missing df name :
  name ∉ pd.columns df → pd.select df name = Raise (mkExn KeyError name).
Proof. intros Hn. unfold pd.select. by rewrite (positions_nil _ _ Hn). Qed.

(** Boolean indexing with a mask computed row by row is a filter. *)
Lemma mask_rows {A} (f : A → bool) (l : list A) :
  fst <$> filter (fun rb => rb.2 = true) (zip l (f <$> l))
  = filter (fun a => f a = true) l.
Proof.
  induction l as [|a l IH]; [done|]. cbn [fmap list_fmap zip zip_with].
  rewrite !filter_cons. cbn [snd].
  destruct (decide (f a = true)); cbn; by rewrite IH.
Qed.

Lemma mask_and_isin i j (l : list (pd.value * list pd.value)) C S :
  pd.mask_and (pd.isin (pd.cell i <$> l) C) (pd.isin (pd.cell j <$> l) S)
  = (fun r => bool_decide (pd.cell i r ∈ C) && bool_decide (pd.cell j r ∈ S))
      <$> l.
Proof.
  unfold pd.mask_and, pd.isin.
  induction l as [|a l IH]; [done|]. cbn. by rewrite <- IH.
Qed.

Lemma isin_fmap i (l : list (pd.value * list pd.value)) C :
  pd.isin (pd.cell i <$> l) C = (fun r => bool_decide (pd.cell i r ∈ C)) <$> l.
Proof. unfold pd.isin. by rewrite <- list_fmap_compose. Qed.

(** [unique] lists every value once, and only values of the Series. *)
Lemma elem_of_unique_from seen s v :
  v ∈ pd.unique_from seen s ↔ v ∈ s ∧ v ∉ seen.
Proof.
  revert seen. induction s as [|a s IH]; intros seen; cbn.
  - rewrite !elem_of_nil. tauto.
  - destruct (decide (a ∈ seen)) as [Ha|Ha].
    + rewrite IH, elem_of_cons. split; [tauto|].
      intros [[->|?] ?]; tauto.
    + rewrite !elem_of_cons, IH, elem_of_cons. split.
      * intros [->|(? & Hn)]; [tauto|]. split; [tauto|]. tauto.
      * intros [[->|?] ?]; [tauto|].
        destruct (decide (v = a)); [tauto|]. right. tauto.
Qed.

Lemma elem_of_unique s v : v ∈ pd.unique s ↔ v ∈ s.
Proof.
  unfold pd.unique. rewrite elem_of_unique_from, elem_of_nil. tauto.
Qed.

Lemma NoDup_unique_from seen s : NoDup (pd.unique_from seen s).
Proof.
  revert seen. induction s as [|a s IH]; intros seen; cbn.
  - constructor.
  - destruct (decide (a ∈ seen)); [apply IH|].
    constructor; [|apply IH].
    rewrite elem_of_unique_from, elem_of_cons. tauto.
Qed.

Lemma NoDup_unique s : NoDup (pd.unique s).
Proof. apply NoDup_unique_from. Qed.

End frames.

(** ** The filter engine *)

Lemma filtered_df_rows df C S i j :
  pd.get_loc "country" (pd.columns df) = Some i →
  pd.get_loc "source" (pd.columns df) = Some j →
  filtered_df df C S =
    Ok {| pd.index_name := pd.index_name df;
          pd.columns := pd.columns df;
          pd.rows := filter (fun r => pd.cell i r ∈ C ∧ pd.cell j r ∈ S)
                       (pd.rows df) |}.
Proof.
  intros Hi Hj. unfold filtered_df.
  rewrite (getitem_loc _ _ _ Hi), (getitem_loc _ _ _ Hj), !bind_Ok.
  unfold pd.getitem_mask. rewrite mask_and_isin, mask_rows.
  do 2 f_equal. apply list_filter_iff. intros r.
  rewrite andb_true_iff, !bool_decide_eq_true. done.
Qed.

Lemma filtered_by_country_rows df C i :
  pd.get_loc "country" (pd.columns df) = Some i →
  filtered_by_country df C =
    Ok {| pd.index_name := pd.index_name df;
          pd.columns := pd.columns df;
          pd.rows := filter (fun r => pd.cell i r ∈ C) (pd.rows df) |}.
Proof.
  intros Hi. unfold filtered_by_country.
  rewrite (getitem_loc _ _ _ Hi), bind_Ok.
  unfold pd.getitem_mask. rewrite isin_fmap, mask_rows.
  do 2 f_equal. apply list_filter_iff. intros r.
  by rewrite bool_decide_eq_true.
Qed.

Lemma sources_unique df C i j :
  pd.get_loc "country" (pd.columns df) = Some i →
  pd.get_loc "source" (pd.columns df) = Some j →
  sources df C =
    Ok (pd.unique (pd.cell j <$> filter (fun r => pd.cell i r ∈ C) (pd.rows df))).
Proof.
  intros Hi Hj. unfold sources.
  rewrite (filtered_by_country_rows _ _ _ Hi), bind_Ok.
  unfold pd.getitem. cbn [pd.columns pd.rows]. by rewrite Hj.
Qed.

Lemma filter_all {A} (P : A → Prop) `{∀ x, Decision (P x)} (l : list A) :
  Forall P l → filter P l = l.
Proof.
  induction 1 as [|a l Ha _ IH]; [done|].
  by rewrite filter_cons_True, IH.
Qed.

Lemma filter_none {A} (P : A → Prop) `{∀ x, Decision (P x)} (l : list A) :
  (∀ x, ¬ P x) → filter P l = [].
Proof.
  intros HP. induction l as [|a l IH]; [done|].
  by rewrite filter_cons_False.
Qed.

(** C1.  For every table with a country and a source column and every pair
    of selections [C] and [S], the filter returns exactly the rows whose
    country is in [C] and whose source is in [S]: the same rows as often as
    the table has them, in the order of the table, under the same columns.
    When [C] or [S] is empty no row is returned. *)
Theorem filtered_df_exact df (C S : list pd.value) i j :
  pd.get_loc "country" (pd.columns df) = Some i →
  pd.get_loc "source" (pd.columns df) = Some j →
  ∃ fdf,
    filtered_df df C S = Ok fdf
    ∧ pd.index_name fdf = pd.index_name df
    ∧ pd.columns fdf = pd.columns df
    ∧ pd.rows fdf
      = filter (fun r => pd.cell i r ∈ C ∧ pd.cell j r ∈ S) (pd.rows df)
    ∧ (∀ r, r ∈ pd.rows fdf ↔
            r ∈ pd.rows df ∧ pd.cell i r ∈ C ∧ pd.cell j r ∈ S)
    ∧ pd.rows fdf `sublist_of` pd.rows df
    ∧ (C = [] ∨ S = [] → pd.rows fdf = []).
Proof.
  intros Hi Hj. eexists. split; [by apply filtered_df_rows|]. cbn.
  split_and!; try done.
  - intros r. rewrite list_elem_of_filter. tauto.
  - apply sublist_filter.
  - intros Hempty. apply filter_none. intros r.
    destruct Hempty as [-> | ->]; rewrite elem_of_nil; tauto.
Qed.

(** C5.  The sources offered for a selection of countries are exactly the
    source values of the rows whose country is selected, each listed once;
    with no country selected, no source is offered. *)
Theorem sources_cascade df (C : list pd.value) i j :
  pd.get_loc "country" (pd.columns df) = Some i →
  pd.get_loc "source" (pd.columns df) = Some j →
  ∃ offered,
    sources df C = Ok offered
    ∧ NoDup offered
    ∧ (∀ v, v ∈ offered ↔
            ∃ r, r ∈ pd.rows df ∧ pd.cell i r ∈ C ∧ pd.cell j r = v)
    ∧ sources df [] = Ok [].
Proof.
  intros Hi Hj. eexists. split; [by apply sources_unique|].
  split_and!.
  - apply NoDup_unique.
  - intros v. rewrite elem_of_unique, list_elem_of_fmap.
    split.
    + intros (r & Hv & Hr). rewrite list_elem_of_filter in Hr.
      exists r. by destruct Hr.
    + intros (r & Hr & HC & Hv). exists r. split; [done|].
      by rewrite list_elem_of_filter.
  - rewrite (sources_unique _ _ _ _ Hi Hj), filter_none; [done|].
    intros r. apply not_elem_of_nil.
Qed.

Lemma sources_cascade_witness :
  sources example_table [pd.VStr "A"] = Ok [pd.VStr "X"; pd.VStr "Y"]
  ∧ sources example_table [] = Ok [].
Proof.
  destruct (sources_cascade example_table [pd.VStr "A"] 0%nat 1%nat eq_refl eq_refl)
    as (offered & Hs & _ & _ & Hnil).
  split; [reflexivity | exact Hnil].
Defined.


Lemma filtered_df_exact_witness :
  ∃ fdf, filtered_df example_table [pd.VStr "A"] [pd.VStr "X"] = Ok fdf
         ∧ pd.rows fdf
           = [(jan 1, [pd.VStr "A"; pd.VStr "X"; num 1; num 1; num 1])].
Proof.
  pose proof (filtered_df_exact example_table [pd.VStr "A"] [pd.VStr "X"]
                0%nat 1%nat eq_refl eq_refl)
    as (fdf & Hf & _ & _ & Hrows & _).
  exists fdf. split; [exact Hf|]. rewrite Hrows. reflexivity.
Defined.

(** ** The date format

    A day in the range of a nanosecond timestamp that the wording of the
    specification accepts, the format parser accepts, as the same day.  The
    converse fails on a month or a day written without its leading zero. *)

Lemma two_digits_one_or_two lo hi s v s' :
  pd.digits 2 0 s = Some (v, s') → (lo ≤ v ≤ hi)%Z →
  pd.one_or_two_digits lo hi s = Some (v, s').
Proof.
  destruct s as [|a [|b s2]]; cbn; try done.
  - by destruct (pd.digit a).
  - destruct (pd.digit a) as [d1|] eqn:Ha; [|done]. cbn.
    destruct (pd.digit b) as [d2|] eqn:Hb; [|done]. cbn.
    intros [= <- <-] Hv. by rewrite decide_True by lia.
Qed.

Lemma days_in_month_le y m : (pd.days_in_month y m ≤ 31)%Z.
Proof.
  unfold pd.days_in_month. repeat case_decide; try lia. destruct (pd.is_leap y); lia.
Qed.

Lemma match_format_Y format text ymd :
  pd.match_format (String "%" (String "Y" format)) text ymd
  = '(y, text') ← pd.digits 4 0 text ;
    pd.match_format format text' (y, ymd.1.2, ymd.2).
Proof. done. Qed.

Lemma match_format_m format text ymd :
  pd.match_format (String "%" (String "m" format)) text ymd
  = '(m, text') ← pd.one_or_two_digits 1 12 text ;
    pd.match_format format text' (ymd.1.1, m, ymd.2).
Proof. done. Qed.

Lemma match_format_d format text ymd :
  pd.match_format (String "%" (String "d" format)) text ymd
  = '(d, text') ← pd.one_or_two_digits 1 31 text ;
    pd.match_format format text' (ymd.1.1, ymd.1.2, d).
Proof. done. Qed.

Lemma match_format_dash format text ymd :
  pd.match_format (String "-" format) (String "-" text) ymd
  = pd.match_format format text ymd.
Proof. by destruct format as [|[] ?]. Qed.

Lemma strict_ymd_strptime s t :
  pd.strict_ymd s = Some t →
  pd.in_ns_range (pd.year t) (pd.month t) (pd.day t) = true →
  pd.strptime "%Y-%m-%d" s = Some t.
Proof.
  unfold pd.strict_ymd, pd.strptime. intros H Hrange.
  destruct (pd.digits 4 0 s) as [[y s1]|] eqn:Hy; [|done].
  cbn [mbind option_bind] in H.
  destruct s1 as [|c s2]; [done|]. cbn [pd.dash mbind option_bind] in H.
  destruct (decide (c = "-"%char)) as [->|Hc]; [|done].
  cbn [mbind option_bind] in H.
  destruct (pd.digits 2 0 s2) as [[m s3]|] eqn:Hm; [|done].
  cbn [mbind option_bind] in H.
  destruct s3 as [|c s4]; [done|]. cbn [pd.dash mbind option_bind] in H.
  destruct (decide (c = "-"%char)) as [->|Hc]; [|done].
  cbn [mbind option_bind] in H.
  destruct (pd.digits 2 0 s4) as [[d s5]|] eqn:Hd; [|done].
  cbn [mbind option_bind] in H.
  case_decide as Hok; [|done]. destruct Hok as (-> & Hmr & Hdr).
  injection H as <-. cbn [pd.year pd.month pd.day] in Hrange.
  pose proof (days_in_month_le y m).
  rewrite match_format_Y, Hy. cbn [mbind option_bind].
  rewrite match_format_dash, match_format_m.
  rewrite (two_digits_one_or_two 1 12 _ _ _ Hm) by done.
  cbn [mbind option_bind].
  rewrite match_format_dash, match_format_d.
  rewrite (two_digits_one_or_two 1 31 _ _ _ Hd) by lia.
  cbn [mbind option_bind pd.match_format fst snd].
  rewrite decide_True by done. cbn [mbind option_bind].
  by rewrite decide_True.
Qed.

Example strptime_one_digit :
  pd.strptime "%Y-%m-%d" "2023-1-5" = Some (pd.mkTimestamp 2023 1 5)
  ∧ pd.strict_ymd "2023-1-5" = None.
Proof. split; reflexivity. Qed.

Example strptime_month_13 :
  pd.strptime "%Y-%m-%d" "2023-13-40" = None
  ∧ pd.strict_ymd "2023-13-40" = None.
Proof. split; reflexivity. Qed.

(** ** The loader *)

Lemma pad_records_Ok width (rs : list (list pd.value)) :
  Forall (fun r => length r ≤ width)%nat rs →
  pd.pad_records width rs = Ok (pd.padded width <$> rs).
Proof.
  induction 1 as [|r rs Hr _ IH]; [done|]. cbn [pd.pad_records].
  unfold pd.pad_record. rewrite decide_True by done.
  by rewrite bind_Ok, IH, bind_Ok.
Qed.

Lemma pad_records_Raise width (rs : list (list pd.value)) :
  ¬ Forall (fun r => length r ≤ width)%nat rs →
  pd.pad_records width rs
  = Raise (mkExn (OtherError "ParserError") "Error tokenizing data").
Proof.
  induction rs as [|r rs IH]; intros Hn; [by destruct Hn|].
  cbn [pd.pad_records]. unfold pd.pad_record.
  destruct (decide (length r ≤ width)%nat) as [Hr|Hr]; [|done].
  rewrite bind_Ok, IH; [done|].
  intros Hrs. apply Hn. by constructor.
Qed.

Lemma length_padded width (r : list pd.value) :
  (length r ≤ width)%nat → length (pd.padded width r) = width.
Proof.
  intros Hr. unfold pd.padded. rewrite length_app, length_replicate. lia.
Qed.

Lemma zip_with_fmap_same {A B C} (f : A → B → C) (g : A → B) (l : list A) :
  zip_with f l (g <$> l) = (fun a => f a (g a)) <$> l.
Proof. induction l as [|a l IH]; [done|]. cbn. by rewrite IH. Qed.

Lemma delete_insert_same {A} (i : nat) (a : A) (l : list A) :
  delete i (<[i:=a]> l) = delete i l.
Proof.
  revert i. induction l as [|b l IH]; intros [|i]; try done.
  cbn. by rewrite IH.
Qed.

(** A boolean test splits a list in two. *)
Lemma length_filter_split {A} (f : A → bool) (l : list A) :
  (length (filter (fun a => f a = false) l)
   + length (filter (fun a => f a = true) l) = length l)%nat.
Proof.
  induction l as [|a l IH]; [done|]. rewrite !filter_cons.
  destruct (f a) eqn:Hf.
  - rewrite decide_False, decide_True by done. cbn [length]. lia.
  - rewrite decide_True, decide_False by done. cbn [length]. lia.
Qed.

(** Filtering and mapping an indexed list when neither looks at the index. *)
Lemma fmap_filter_imap {A B C} (mk : nat → A → B) (P : B → Prop)
    `{∀ b, Decision (P b)} (g : B → C) (P' : A → Prop)
    `{∀ a, Decision (P' a)} (g' : A → C) (l : list A) :
  Forall (fun a => ∀ k, (P (mk k a) ↔ P' a) ∧ g (mk k a) = g' a) l →
  g <$> filter P (imap mk l) = g' <$> filter P' l.
Proof.
  intros Hl. revert mk Hl. induction l as [|a l IH]; intros mk Hl; [done|].
  apply Forall_cons in Hl as [Ha Hl]. cbn [imap].
  destruct (Ha 0%nat) as [HP Hg]. rewrite !filter_cons.
  destruct (decide (P (mk 0%nat a))) as [Hy|Hn].
  - rewrite decide_True by tauto. cbn. rewrite Hg. f_equal.
    apply (IH (mk ∘ S)). eapply Forall_impl; [exact Hl|]. intros x Hx k. apply Hx.
  - rewrite decide_False by tauto.
    apply (IH (mk ∘ S)). eapply Forall_impl; [exact Hl|]. intros x Hx k. apply Hx.
Qed.

Lemma filter_fmap {A B} (f : A → B) (P : B → Prop) `{∀ b, Decision (P b)}
    (l : list A) :
  filter P (f <$> l) = f <$> filter (fun a => P (f a)) l.
Proof.
  induction l as [|a l IH]; [done|]. cbn [fmap list_fmap].
  rewrite !filter_cons. case_decide; cbn [fmap list_fmap]; by rewrite <- IH.
Qed.

Lemma elem_of_delete {A} (i : nat) (l : list A) (x : A) :
  x ∈ delete i l → x ∈ l.
Proof.
  intros [k Hk]%list_elem_of_lookup_1. rewrite list_lookup_delete in Hk.
  by eapply list_elem_of_lookup_2.
Qed.

Lemma display_country c : display c = "country" → c = "country".
Proof. unfold display. repeat case_decide; by subst. Qed.

Lemma table_width_ge header records :
  (length header ≤ pd.table_width header records)%nat.
Proof. unfold pd.table_width. destruct records; lia. Qed.

Lemma table_width_fit header records :
  Forall (fun r => length r ≤ length header)%nat records →
  pd.table_width header records = length header.
Proof. unfold pd.table_width. destruct 1; lia. Qed.

Section loader.

Variable strptime : string → string → option pd.Timestamp.

Abbreviation parsed := (parsed_date strptime).

(** What [load_data] returns for a readable file whose header has the date
    column at position [i] and whose lines all fit the width of the table:
    the cells of a line are its fields after the implicit index, filled up
    with NaN. *)
Lemma load_data_wide fs header records i :
  fs !! FILE_PATH = Some (pd.Delimited header records) →
  pd.get_loc DATE_COLUMN header = Some i →
  Forall (fun r => length r ≤ pd.table_width header records)%nat records →
  load_data strptime fs =
    Ok {| pd.index_name := Some DATE_COLUMN;
          pd.columns :=
            (fun c => default c (display_names !! c)) <$> delete i header;
          pd.rows :=
            (fun r => (parsed i r, delete i r)) <$>
              filter (fun r => pd.isna (parsed i r) = false)
                (cells header records <$> records) |}.
Proof.
  intros Hfile Hloc Hlen. unfold load_data, pd.read_csv.
  rewrite Hfile. cbv zeta. rewrite (pad_records_Ok _ _ Hlen), bind_Ok.
  cbn [pd.parse_date_columns]. unfold pd.parse_date_column.
  cbn [pd.columns pd.rows]. rewrite Hloc, !bind_Ok.
  unfold pd.dropna, pd.set_column. cbn [pd.columns pd.rows pd.index_name].
  rewrite Hloc, bind_Ok. unfold pd.set_index.
  cbn [pd.columns pd.rows pd.index_name]. rewrite Hloc, bind_Ok.
  unfold pd.rename. cbn [pd.columns pd.rows pd.index_name]. do 2 f_equal.
  unfold date_parser, pd.to_datetime_coerce.
  rewrite <- list_fmap_compose, zip_with_fmap_same.
  unfold pd.raw_rows. rewrite fmap_imap.
  set (width := pd.table_width header records).
  set (leading := (width - length header)%nat).
  assert ((cells header records <$> records)
          = drop leading <$> (pd.padded width <$> records)) as ->
    by (by rewrite <- list_fmap_compose).
  rewrite filter_fmap, <- list_fmap_compose.
  apply fmap_filter_imap.
  apply Forall_fmap, Forall_forall. intros r Hr k.
  rewrite Forall_forall in Hlen. specialize (Hlen r Hr).
  assert (i < length (drop leading (pd.padded width r)))%nat as Hi.
  { rewrite length_drop, length_padded by done.
    pose proof (table_width_ge header records).
    apply get_loc_Some in Hloc. apply lookup_lt_Some in Hloc.
    subst leading width. lia. }
  unfold pd.cell, parsed_date, compose. cbn [fst snd].
  rewrite list_lookup_insert_eq by done. cbn [default].
  by rewrite delete_insert_same.
Qed.

(** The same when no line is longer than the header. *)
Lemma load_data_Ok fs header records i :
  fs !! FILE_PATH = Some (pd.Delimited header records) →
  pd.get_loc DATE_COLUMN header = Some i →
  Forall (fun r => length r ≤ length header)%nat records →
  load_data strptime fs =
    Ok {| pd.index_name := Some DATE_COLUMN;
          pd.columns :=
            (fun c => default c (display_names !! c)) <$> delete i header;
          pd.rows :=
            (fun r => (parsed i r, delete i r)) <$>
              filter (fun r => pd.isna (parsed i r) = false)
                (pd.padded (length header) <$> records) |}.
Proof.
  intros Hfile Hloc Hlen.
  rewrite (load_data_wide _ _ _ _ Hfile Hloc)
    by (by rewrite (table_width_fit _ _ Hlen)).
  do 4 f_equal. apply list_fmap_ext. intros _ r _.
  unfold cells. rewrite (table_width_fit _ _ Hlen), Nat.sub_diag. done.
Qed.

Lemma load_data_missing fs :
  fs !! FILE_PATH = None →
  load_data strptime fs =
    Raise (mkExn FileNotFoundError
             ("[Errno 2] No such file or directory: '" +:+ FILE_PATH +:+ "'")).
Proof. intros Hfile. unfold load_data, pd.read_csv. by rewrite Hfile. Qed.

Lemma load_data_unreadable fs e :
  fs !! FILE_PATH = Some (pd.Unreadable e) →
  load_data strptime fs = Raise e.
Proof. intros Hfile. unfold load_data, pd.read_csv. by rewrite Hfile. Qed.

(** A line with more fields than the table is wide, or no date column,
    makes [load_data] raise, and not as a missing file. *)
Lemma load_data_malformed fs header records :
  fs !! FILE_PATH = Some (pd.Delimited header records) →
  DATE_COLUMN ∉ header
  ∨ ¬ Forall (fun r => length r ≤ pd.table_width header records)%nat records →
  ∃ e, load_data strptime fs = Raise e ∧ exn_kind e ≠ FileNotFoundError.
Proof.
  intros Hfile Hbad. unfold load_data, pd.read_csv. rewrite Hfile. cbv zeta.
  destruct (decide (Forall (fun r => length r ≤ pd.table_width header records)%nat
                      records))
    as [Hlen|Hlen].
  - destruct Hbad as [Hdate|]; [|done].
    apply get_loc_None in Hdate.
    rewrite (pad_records_Ok _ _ Hlen), bind_Ok.
    cbn [pd.parse_date_columns]. unfold pd.parse_date_column.
    cbn [pd.columns]. rewrite Hdate. by eexists.
  - rewrite (pad_records_Raise _ _ Hlen). by eexists.
Qed.

(** Why [load_data] can raise: the file, never its date values. *)
Lemma load_data_Raise fs e :
  load_data strptime fs = Raise e →
  fs !! FILE_PATH = None
  ∨ fs !! FILE_PATH = Some (pd.Unreadable e)
  ∨ ∃ header records,
      fs !! FILE_PATH = Some (pd.Delimited header records)
      ∧ (DATE_COLUMN ∉ header
         ∨ ¬ Forall (fun r => length r ≤ length header)%nat records).
Proof.
  intros Hraise.
  destruct (fs !! FILE_PATH) as [[e'|header records]|] eqn:Hfile; [| |by left].
  - right; left. rewrite (load_data_unreadable _ _ Hfile) in Hraise. congruence.
  - right; right. exists header, records. split; [done|].
    destruct (decide (Forall (fun r => length r ≤ length header)%nat records))
      as [Hlen|Hlen]; [|by right].
    left. intros [i Hloc]%get_loc_elem_of.
    by rewrite (load_data_Ok _ _ _ _ Hfile Hloc Hlen) in Hraise.
Qed.

Lemma load_data_Raise_wide fs e :
  load_data strptime fs = Raise e →
  fs !! FILE_PATH = None
  ∨ fs !! FILE_PATH = Some (pd.Unreadable e)
  ∨ ∃ header records,
      fs !! FILE_PATH = Some (pd.Delimited header records)
      ∧ (DATE_COLUMN ∉ header
         ∨ ¬ Forall (fun r => length r ≤ pd.table_width header records)%nat
               records).
Proof.
  intros Hraise.
  destruct (fs !! FILE_PATH) as [[e'|header records]|] eqn:Hfile; [| |by left].
  - right; left. rewrite (load_data_unreadable _ _ Hfile) in Hraise. congruence.
  - right; right. exists header, records. split; [done|].
    destruct (decide (Forall (fun r => length r ≤ pd.table_width header records)%nat
                        records))
      as [Hlen|Hlen]; [|by right].
    left. intros [i Hloc]%get_loc_elem_of.
    by rewrite (load_data_wide _ _ _ _ Hfile Hloc Hlen) in Hraise.
Qed.

Lemma display_names_display c : default c (display_names !! c) = display c.
Proof.
  unfold display_names, display. cbn [list_to_map foldr uncurry].
  repeat (rewrite lookup_insert; case_decide; simplify_eq/=;
          [by repeat case_decide|]).
  rewrite lookup_empty. cbn. by repeat case_decide.
Qed.

(** C2, as amended.  For a readable file with a date column, [load_data]
    returns a table whatever the date values are.  Its rows are the records
    whose date the format parser of the library accepted: a record whose
    date text the parser rejects gets NaT and is not in the table, every
    row kept carries a timestamp, and the rows kept and the records dropped
    add up to the records of the file.  When [load_data] raises, the file is
    missing, unreadable, or lacks the date column or has a line with too
    many fields. *)
Theorem malformed_dates_dropped fs header records i :
  fs !! FILE_PATH = Some (pd.Delimited header records) →
  pd.get_loc DATE_COLUMN header = Some i →
  Forall (fun r => length r ≤ length header)%nat records →
  ∃ df,
    load_data strptime fs = Ok df
    ∧ pd.rows df =
        (fun r => (parsed i r, delete i r)) <$>
          filter (fun r => pd.isna (parsed i r) = false)
            (pd.padded (length header) <$> records)
    ∧ (∀ r s, r ∈ records → r !! i = Some (pd.VStr s) →
              strptime "%Y-%m-%d" s = None →
              parsed i (pd.padded (length header) r) = pd.VNaT
              ∧ (pd.VNaT, delete i (pd.padded (length header) r)) ∉ pd.rows df)
    ∧ Forall (fun row => ∃ t, row.1 = pd.VTime t) (pd.rows df)
    ∧ (length (pd.rows df)
       + length (filter (fun r => pd.isna (parsed i r) = true)
                   (pd.padded (length header) <$> records))
       = length records)%nat
    ∧ (∀ fs' e, load_data strptime fs' = Raise e →
         fs' !! FILE_PATH = None
         ∨ fs' !! FILE_PATH = Some (pd.Unreadable e)
         ∨ ∃ header' records',
             fs' !! FILE_PATH = Some (pd.Delimited header' records')
             ∧ (DATE_COLUMN ∉ header'
                ∨ ¬ Forall (fun r => length r ≤ length header')%nat records')).
Proof.
  intros Hfile Hloc Hlen. eexists. split; [by apply load_data_Ok|].
  cbn [pd.rows].
  assert (Forall (fun row : pd.value * list pd.value => ∃ t, row.1 = pd.VTime t)
            ((fun r => (parsed i r, delete i r)) <$>
               filter (fun r => pd.isna (parsed i r) = false)
                 (pd.padded (length header) <$> records))) as Htime.
  { apply Forall_fmap, Forall_forall. intros r [Hna _]%list_elem_of_filter.
    cbn. unfold parsed_date, pd.to_datetime_scalar in *.
    destruct (default pd.VNaN (r !! i)) as [s| | |t|]; try done; [|by eexists].
    destruct (strptime _ s); [by eexists|done]. }
  split_and!; [done| |done| |apply load_data_Raise].
  2: { rewrite length_fmap.
       rewrite (length_filter_split (fun r => pd.isna (parsed i r))).
       apply length_fmap. }
  intros r s Hr Hcell Hfail.
  assert (parsed i (pd.padded (length header) r) = pd.VNaT) as Hnat.
  { unfold parsed_date, pd.padded.
    rewrite (lookup_app_l_Some _ _ _ _ Hcell). cbn. by rewrite Hfail. }
  split; [done|]. intros Hin. rewrite Forall_forall in Htime.
  destruct (Htime _ Hin) as [t Ht]. done.
Qed.

(** C8.  The table [load_data] returns is indexed by the date, keeps the
    other columns of the file in their order under their display labels
    (the three measurement columns renamed, [country], [source] and any
    other label unchanged), and keeps the retained records in the order of
    the file. *)
Theorem load_data_order_and_labels fs header records i :
  fs !! FILE_PATH = Some (pd.Delimited header records) →
  pd.get_loc DATE_COLUMN header = Some i →
  Forall (fun r => length r ≤ length header)%nat records →
  ∃ df,
    load_data strptime fs = Ok df
    ∧ pd.index_name df = Some DATE_COLUMN
    ∧ pd.columns df = display <$> delete i header
    ∧ display "production_m3" = "Production (m³)"
    ∧ display "service_hours" = "Service Hours"
    ∧ display "production_m3_per_hour" = "Efficiency (m³/hour)"
    ∧ display "country" = "country"
    ∧ display "source" = "source"
    ∧ pd.rows df =
        (fun r => (parsed i r, delete i r)) <$>
          filter (fun r => pd.isna (parsed i r) = false)
            (pd.padded (length header) <$> records)
    ∧ snd <$> pd.rows df
        `sublist_of` (fun r => delete i (pd.padded (length header) r)) <$> records.
Proof.
  intros Hfile Hloc Hlen. eexists. split; [by apply load_data_Ok|].
  cbn [pd.rows pd.columns pd.index_name].
  split_and!; try done.
  - apply list_fmap_ext. intros ? c _. apply display_names_display.
  - rewrite <- list_fmap_compose.
    assert ((fun r => delete i (pd.padded (length header) r)) <$> records
            = delete i <$> (pd.padded (length header) <$> records)) as ->
      by (by rewrite <- list_fmap_compose).
    apply fmap_sublist, sublist_filter.
Qed.

End loader.

Lemma load_example :
  load_data pd.strptime example_fs = Ok example_loaded.
Proof. reflexivity. Qed.

Lemma malformed_dates_dropped_witness :
  load_data pd.strptime example_fs = Ok example_loaded
  ∧ (pd.VNaT, [pd.VStr "CountryA"; pd.VStr "SourceX"; num 100; num 10; num 10])
      ∉ pd.rows example_loaded.
Proof.
  assert (Forall (fun r => length r ≤ length example_header)%nat
            example_records) as Hfit by repeat constructor.
  pose proof (malformed_dates_dropped pd.strptime example_fs
                example_header example_records 0%nat eq_refl eq_refl Hfit)
    as (df & Hload & _ & Hdrop & _).
  rewrite load_example in Hload. injection Hload as <-.
  split; [reflexivity|].
  refine (proj2 (Hdrop (example_records !!! 1%nat) "2023-13-40" _ eq_refl eq_refl)).
  unfold example_records. rewrite !elem_of_cons. right. left. reflexivity.
Defined.

(** C2, as stated, fails: the date [2023-1-5] is not of the strict form
    (its month and day have one digit), yet the format parser reads it as
    5 January 2023 and the row is in the loaded table. *)
Lemma one_digit_date_is_kept :
  pd.strict_ymd "2023-1-5" = None
  ∧ load_data pd.strptime one_digit_fs = Ok one_digit_loaded
  ∧ (jan 5, [pd.VStr "CountryA"; pd.VStr "SourceX"; num 100; num 10; num 10])
      ∈ pd.rows one_digit_loaded.
Proof.
  split_and!; [reflexivity | reflexivity |].
  unfold one_digit_loaded. cbn [pd.rows]. apply list_elem_of_singleton.
  reflexivity.
Qed.

Lemma load_data_order_and_labels_witness :
  ∃ df, load_data pd.strptime example_fs = Ok df
        ∧ pd.columns df = loaded_columns.
Proof.
  assert (Forall (fun r => length r ≤ length example_header)%nat
            example_records) as Hfit by repeat constructor.
  pose proof (load_data_order_and_labels pd.strptime example_fs
                example_header example_records 0%nat eq_refl eq_refl Hfit)
    as (df & Hload & _ & Hcols & _).
  exists df. split; [exact Hload | exact Hcols].
Defined.

(** ** Memoization *)

Section memo.

Variable strptime : string → string → option pd.Timestamp.
Variable K : np.kernel.

Lemma load_data_cached_hit fs df n :
  load_data_cached strptime fs (st.mkCache (Some df) n)
  = (Ok df, st.mkCache (Some df) n).
Proof. done. Qed.

Lemma load_data_cached_miss fs df n :
  load_data strptime fs = Ok df →
  load_data_cached strptime fs (st.mkCache None n)
  = (Ok df, st.mkCache (Some df) (S n)).
Proof.
  intros Hload. unfold load_data_cached, st.cache_data. cbn. by rewrite Hload.
Qed.

Lemma loads_warm fss df n :
  loads strptime fss (st.mkCache (Some df) n)
  = (replicate (length fss) (Ok df), st.mkCache (Some df) n).
Proof.
  induction fss as [|fs fss IH]; [done|].
  cbn [loads]. rewrite load_data_cached_hit, IH. done.
Qed.

Lemma run_cache fs u c :
  (run strptime K fs u c).2 = (load_data_cached strptime fs c).2.
Proof. unfold run. by destruct (load_data_cached strptime fs c). Qed.

Lemma session_warm steps df n :
  (session strptime K steps (st.mkCache (Some df) n)).2
  = st.mkCache (Some df) n.
Proof.
  induction steps as [|[fs u] steps IH]; [done|]. cbn [session].
  pose proof (run_cache fs u (st.mkCache (Some df) n)) as Hc.
  rewrite load_data_cached_hit in Hc.
  destruct (run strptime K fs u _) as [out c']. cbn in Hc. subst c'.
  destruct (session strptime K steps _) as [outs c'']. cbn in IH. by subst.
Qed.

(** C6.  Once a call of the memoized loader has returned a table, every
    later call returns that same table, whatever the file system has
    become, and the body of [load_data] has run exactly once: over any
    sequence of calls, and over any session of runs of the script. *)
Theorem load_data_memoized fs df fss :
  load_data strptime fs = Ok df →
  loads strptime (fs :: fss) st.cold
  = (replicate (S (length fss)) (Ok df), st.mkCache (Some df) 1)
  ∧ (∀ fs' n, load_data_cached strptime fs' (st.mkCache (Some df) n)
              = (Ok df, st.mkCache (Some df) n))
  ∧ (∀ u steps,
       (session strptime K ((fs, u) :: steps) st.cold).2
       = st.mkCache (Some df) 1).
Proof.
  intros Hload. split_and!.
  - cbn [loads]. unfold st.cold. rewrite (load_data_cached_miss _ _ _ Hload).
    by rewrite loads_warm.
  - intros. apply load_data_cached_hit.
  - intros u steps. cbn [session].
    pose proof (run_cache fs u st.cold) as Hc. unfold st.cold in *.
    rewrite (load_data_cached_miss _ _ _ Hload) in Hc.
    destruct (run strptime K fs u _) as [out c']. cbn in Hc. subst c'.
    pose proof (session_warm steps df 1) as Hs.
    destruct (session strptime K steps _) as [outs c'']. cbn in Hs. by subst.
Qed.

(** ** Failures of the loader *)

Lemma run_miss fs u c :
  st.memo c = None →
  (run strptime K fs u c).1
  = (st.emit (st.ev_set_page_config "wide") ;;
     df ← load_or_stop (load_data strptime fs) ;
     dashboard K df u).
Proof.
  intros Hc. unfold run, load_data_cached, st.cache_data. rewrite Hc.
  by destruct (load_data strptime fs).
Qed.

Lemma run_dashboard fs u c df :
  st.memo c = None →
  load_data strptime fs = Ok df →
  (run strptime K fs u c).1
  = ((st.ev_set_page_config "wide") :: (dashboard K df u).1, (dashboard K df u).2).
Proof.
  intros Hc Hload. by rewrite (run_miss _ _ _ Hc), Hload.
Qed.

Lemma dashboard_no_country df u :
  ("country" ∉ pd.columns df) →
  dashboard K df u
  = (page_header, inl (st.Uncaught (mkExn KeyError "country"))).
Proof.
  intros Hn. unfold dashboard, selectors, countries.
  by rewrite (getitem_missing _ _ Hn).
Qed.

Lemma loaded_without_country (header : list string) (i : nat) :
  ("country" ∉ header) →
  "country" ∉ ((fun c => default c (display_names !! c)) <$> delete i header).
Proof.
  intros Hno (c0 & Hc0 & Hin)%list_elem_of_fmap.
  rewrite display_names_display in Hc0. symmetry in Hc0.
  apply display_country in Hc0 as ->. by apply elem_of_delete in Hin.
Qed.

(** C7, as amended.  On a cache miss: when the path does not exist
    [load_data] raises [FileNotFoundError] and the run displays the
    file-not-found message and stops; any other exception of [load_data] is
    displayed with its own message and the run stops; in both cases nothing
    of the dashboard is displayed.  [load_data] raises for a missing file,
    an unreadable file, a file without the date column and a file with a
    line of more fields than the table is wide, and for nothing else.  A
    file that lacks the country column is not among them: it loads, and the
    run ends after the page header on a [KeyError] that nothing catches,
    with no error message displayed. *)
Theorem load_failure_halts fs u c :
  st.memo c = None →
  (fs !! FILE_PATH = None →
     (∃ msg, load_data strptime fs = Raise (mkExn FileNotFoundError msg))
     ∧ (run strptime K fs u c).1
       = ([st.ev_set_page_config "wide";
           st.ev_error
             "Error: The file 'data/production_basic_aggregated.csv' was not found. Please ensure your data is saved correctly."],
          inl st.Stopped))
  ∧ (∀ e, load_data strptime fs = Raise e →
          exn_kind e ≠ FileNotFoundError →
          (run strptime K fs u c).1
          = ([st.ev_set_page_config "wide";
              st.ev_error
                ("An error occurred while loading or parsing the data: "
                 +:+ exn_str e)],
             inl st.Stopped))
  ∧ (∀ e, fs !! FILE_PATH = Some (pd.Unreadable e) →
          load_data strptime fs = Raise e)
  ∧ (∀ header records,
       fs !! FILE_PATH = Some (pd.Delimited header records) →
       DATE_COLUMN ∉ header
       ∨ ¬ Forall (fun r => length r ≤ pd.table_width header records)%nat
             records →
       ∃ e, load_data strptime fs = Raise e
            ∧ exn_kind e ≠ FileNotFoundError)
  ∧ (∀ e, load_data strptime fs = Raise e →
          ∃ body, (run strptime K fs u c).1
                  = ([st.ev_set_page_config "wide"; st.ev_error body],
                     inl st.Stopped))
  ∧ (∀ e, load_data strptime fs = Raise e →
          fs !! FILE_PATH = None
          ∨ fs !! FILE_PATH = Some (pd.Unreadable e)
          ∨ ∃ header records,
              fs !! FILE_PATH = Some (pd.Delimited header records)
              ∧ (DATE_COLUMN ∉ header
                 ∨ ¬ Forall (fun r => length r ≤ pd.table_width header records)%nat
                       records))
  ∧ (∀ header records,
       fs !! FILE_PATH = Some (pd.Delimited header records) →
       DATE_COLUMN ∈ header →
       Forall (fun r => length r ≤ pd.table_width header records)%nat records →
       ("country" ∉ header) →
       ∃ df,
         load_data strptime fs = Ok df
         ∧ (run strptime K fs u c).1
           = ((st.ev_set_page_config "wide") :: page_header,
              inl (st.Uncaught (mkExn KeyError "country")))
         ∧ ∀ body, st.ev_error body ∉ (run strptime K fs u c).1.1).
Proof.
  intros Hc. split_and!.
  - intros Hfile. split.
    + eexists. by apply load_data_missing.
    + by rewrite (run_miss _ _ _ Hc), (load_data_missing _ _ Hfile).
  - intros e Hraise Hkind. rewrite (run_miss _ _ _ Hc), Hraise.
    destruct e as [[] msg]; done.
  - apply load_data_unreadable.
  - apply load_data_malformed.
  - intros e Hraise. rewrite (run_miss _ _ _ Hc), Hraise.
    destruct e as [[] msg]; by eexists.
  - apply load_data_Raise_wide.
  - intros header records Hfile [i Hloc]%get_loc_elem_of Hlen Hno.
    pose proof (load_data_wide strptime _ _ _ _ Hfile Hloc Hlen) as Hload.
    eexists. split; [exact Hload|].
    assert ((run strptime K fs u c).1
            = ((st.ev_set_page_config "wide") :: page_header,
               inl (st.Uncaught (mkExn KeyError "country")))) as Hrun.
    { rewrite (run_dashboard _ _ _ _ Hc Hload).
      rewrite dashboard_no_country; [done|].
      cbn [pd.columns]. by apply loaded_without_country. }
    split; [exact Hrun|]. intros body. rewrite Hrun. cbn [fst].
    unfold page_header. rewrite !elem_of_cons, elem_of_nil.
    intros [|[|[|[|]]]]; done.
Qed.

End memo.

Lemma load_data_memoized_witness :
  loads pd.strptime [example_fs; ∅; example_fs] st.cold
  = ([Ok example_loaded; Ok example_loaded; Ok example_loaded],
     st.mkCache (Some example_loaded) 1).
Proof.
  exact (proj1 (load_data_memoized pd.strptime exact.kernel example_fs
                  example_loaded [∅; example_fs] eq_refl)).
Defined.

Lemma load_failure_halts_witness :
  (run pd.strptime exact.kernel ∅ st.untouched st.cold).1
  = ([st.ev_set_page_config "wide";
      st.ev_error
        "Error: The file 'data/production_basic_aggregated.csv' was not found. Please ensure your data is saved correctly."],
     inl st.Stopped).
Proof.
  exact (proj2 (proj1 (load_failure_halts pd.strptime exact.kernel ∅
                         st.untouched st.cold eq_refl) eq_refl)).
Defined.

(** C7, as stated, fails for a file without required columns: the file of
    one line with a date and a source but no country is read without any
    error, so no message is displayed, and the run does not halt in the
    handler: it ends on the country lookup with a [KeyError] that nothing
    catches. *)
Lemma missing_country_is_not_reported :
  (∃ df, load_data pd.strptime no_country_fs = Ok df)
  ∧ (run pd.strptime exact.kernel no_country_fs st.untouched st.cold).1
    = ((st.ev_set_page_config "wide") :: page_header,
       inl (st.Uncaught (mkExn KeyError "country")))
  ∧ (∀ body,
       st.ev_error body
       ∉ (run pd.strptime exact.kernel no_country_fs st.untouched st.cold).1.1).
Proof.
  split_and!.
  - eexists. reflexivity.
  - reflexivity.
  - intros body.
    change (run pd.strptime exact.kernel no_country_fs st.untouched st.cold).1.1
      with ((st.ev_set_page_config "wide") :: page_header).
    unfold page_header. rewrite !elem_of_cons, elem_of_nil.
    intros [|[|[|[|]]]]; done.
Qed.

(** ** The main panel and the raw-data table *)

Lemma lift_Ok_bind {A B} (a : A) (k : A → st.script B) :
  (st.lift (Ok a) ≫= k) = k a.
Proof. unfold mbind, st.script_bind. cbn. by destruct (k a). Qed.

(** The selectors display nothing of the metrics branch. *)
Lemma selectors_quiet df u :
  Forall (fun e => st.shows_metrics e = false) (selectors df u).1.
Proof.
  unfold selectors.
  destruct (countries df) as [cs|e]; cbn; [|by repeat constructor].
  destruct (sources df _) as [ss|e]; cbn; [|by repeat constructor].
  destruct (filtered_df df _ _) as [fdf|e]; cbn; by repeat constructor.
Qed.

Lemma raw_data_quiet fdf u :
  Forall (fun e => st.shows_metrics e = false) (raw_data fdf u).1
  ∧ (raw_data fdf u).2 = inr ().
Proof.
  unfold raw_data. destruct (st.show_raw_data u); cbn; by repeat constructor.
Qed.

Lemma empty_no_rows fdf : pd.rows fdf = [] → pd.empty fdf = true.
Proof. intros H. unfold pd.empty. by rewrite H. Qed.

Lemma not_empty fdf c :
  pd.rows fdf ≠ [] → c ∈ pd.columns fdf → pd.empty fdf = false.
Proof.
  intros Hr Hc. unfold pd.empty.
  rewrite bool_decide_eq_false_2 by done.
  rewrite bool_decide_eq_false_2; [done|].
  intros Hnil. rewrite Hnil in Hc. by apply elem_of_nil in Hc.
Qed.

(** C9.  When the raw-data box is ticked, the table written is the head of
    the filtered frame: its first [min 100 n] rows, in order, under the same
    columns, where [n] is the number of rows of the filtered frame. *)
Theorem raw_data_preview fdf u :
  st.show_raw_data u = true →
  raw_data fdf u
  = ([st.ev_checkbox "Show Raw Data";
      st.ev_subheader "Raw Data (First 100 rows)";
      st.ev_write (pd.head 100 fdf)],
     inr ())
  ∧ length (pd.rows (pd.head 100 fdf)) = (100 `min` length (pd.rows fdf))%nat
  ∧ pd.rows (pd.head 100 fdf)
    = take (100 `min` length (pd.rows fdf)) (pd.rows fdf)
  ∧ pd.columns (pd.head 100 fdf) = pd.columns fdf.
Proof.
  intros Hshow. split_and!.
  - unfold raw_data. by rewrite Hshow.
  - unfold pd.head. cbn [pd.rows]. apply length_take.
  - unfold pd.head. cbn [pd.rows].
    destruct (decide (100 ≤ length (pd.rows fdf))%nat).
    + by rewrite Nat.min_l.
    + rewrite Nat.min_r by lia. by rewrite !take_ge by lia.
  - done.
Qed.

Lemma raw_data_preview_witness :
  length (pd.rows (pd.head 100 (tall_table 250))) = 100%nat
  ∧ length (pd.rows (pd.head 100 (tall_table 3))) = 3%nat.
Proof.
  split.
  - exact (proj1 (proj2 (raw_data_preview (tall_table 250)
                           (st.mkUser None None None true) eq_refl))).
  - reflexivity.
Defined.

Section panel.

Variable K : np.kernel.

(** The metrics branch when the three metrics are computed and rendered. *)
Lemma metrics_and_chart_Ok fdf u p e h tp te th :
  total_production K fdf = Ok p →
  avg_efficiency K fdf = Ok e →
  total_service_hours K fdf = Ok h →
  np.format K p ",.2f" = Ok tp →
  np.format K e ",.2f" = Ok te →
  np.format K h ",.0f" = Ok th →
  metrics_and_chart K fdf u
  = ([st.ev_columns 3;
      st.ev_metric 1 "Total Production" (tp +:+ " M m³");
      st.ev_metric 2 "Average Efficiency" (te +:+ " m³/hour");
      st.ev_metric 3 "Total Service Hours" (th +:+ " hours");
      st.ev_markdown "---";
      st.ev_subheader "Production and Efficiency Over Time";
      st.ev_selectbox "Select Metric to Visualize" metric_options;
      st.ev_altair_chart
        {| st.chart_data := pd.reset_index fdf;
           st.x := DATE_COLUMN;
           st.y := default "" (metric_options
                                 !! default 0%nat (st.metric_picked u));
           st.color := "source";
           st.tooltip :=
             [DATE_COLUMN; "country"; "source";
              default "" (metric_options
                            !! default 0%nat (st.metric_picked u))];
           st.chart_title :=
             default "" (metric_options
                           !! default 0%nat (st.metric_picked u))
             +:+ " by Source Over Time" |}],
     inr ()).
Proof.
  intros H1 H2 H3 H4 H5 H6. unfold metrics_and_chart.
  rewrite H1, H2, H3, emit_then, !lift_Ok_bind.
  rewrite H4, lift_Ok_bind, emit_then.
  rewrite H5, lift_Ok_bind, emit_then.
  rewrite H6, lift_Ok_bind. done.
Qed.

(** A metric that cannot be computed ends the run before any is
    displayed; one that cannot be rendered ends it after those before it. *)
Lemma metrics_and_chart_Raise fdf u x :
  (total_production K fdf = Raise x
   ∨ (∃ p, total_production K fdf = Ok p ∧ avg_efficiency K fdf = Raise x)
   ∨ (∃ p e, total_production K fdf = Ok p ∧ avg_efficiency K fdf = Ok e
             ∧ total_service_hours K fdf = Raise x)
   ∨ (∃ p e h, total_production K fdf = Ok p ∧ avg_efficiency K fdf = Ok e
               ∧ total_service_hours K fdf = Ok h
               ∧ np.format K p ",.2f" = Raise x)) →
  metrics_and_chart K fdf u = ([st.ev_columns 3], inl (st.Uncaught x)).
Proof.
  unfold metrics_and_chart. rewrite emit_then.
  intros [H1|[(p & H1 & H2)|[(p & e & H1 & H2 & H3)|(p & e & h & H1 & H2 & H3 & H4)]]].
  - by rewrite H1.
  - by rewrite H1, H2.
  - by rewrite H1, H2, H3.
  - rewrite H1, H2, H3, !lift_Ok_bind, H4. done.
Qed.

Lemma metrics_and_chart_Raise_later fdf u p e h tp x :
  total_production K fdf = Ok p →
  avg_efficiency K fdf = Ok e →
  total_service_hours K fdf = Ok h →
  np.format K p ",.2f" = Ok tp →
  (np.format K e ",.2f" = Raise x →
   metrics_and_chart K fdf u
   = ([st.ev_columns 3; st.ev_metric 1 "Total Production" (tp +:+ " M m³")],
      inl (st.Uncaught x)))
  ∧ (∀ te, np.format K e ",.2f" = Ok te →
           np.format K h ",.0f" = Raise x →
           metrics_and_chart K fdf u
           = ([st.ev_columns 3;
               st.ev_metric 1 "Total Production" (tp +:+ " M m³");
               st.ev_metric 2 "Average Efficiency" (te +:+ " m³/hour")],
              inl (st.Uncaught x))).
Proof.
  intros H1 H2 H3 H4. unfold metrics_and_chart.
  rewrite H1, H2, H3, emit_then, !lift_Ok_bind, H4, lift_Ok_bind, emit_then.
  split.
  - intros H5. by rewrite H5.
  - intros te H5 H6. by rewrite H5, lift_Ok_bind, emit_then, H6.
Qed.

(** The only chart the metrics branch displays. *)
Lemma metrics_and_chart_chart fdf u ch :
  st.ev_altair_chart ch ∈ (metrics_and_chart K fdf u).1 →
  ch = {| st.chart_data := pd.reset_index fdf;
          st.x := DATE_COLUMN;
          st.y := default "" (metric_options
                                !! default 0%nat (st.metric_picked u));
          st.color := "source";
          st.tooltip :=
            [DATE_COLUMN; "country"; "source";
             default "" (metric_options
                           !! default 0%nat (st.metric_picked u))];
          st.chart_title :=
            default "" (metric_options
                          !! default 0%nat (st.metric_picked u))
            +:+ " by Source Over Time" |}.
Proof.
  assert (∀ t : list st.event,
            Forall (fun e => ∀ c, e ≠ st.ev_altair_chart c) t →
            st.ev_altair_chart ch ∈ t → False) as Hno.
  { intros t Ht Hin. rewrite Forall_forall in Ht. by apply (Ht _ Hin ch). }
  destruct (total_production K fdf) as [p|x] eqn:H1.
  2: { rewrite (metrics_and_chart_Raise fdf u x) by by left.
       intros []%Hno. by repeat constructor. }
  destruct (avg_efficiency K fdf) as [e|x] eqn:H2.
  2: { rewrite (metrics_and_chart_Raise fdf u x) by (right; left; by eexists).
       intros []%Hno. by repeat constructor. }
  destruct (total_service_hours K fdf) as [h|x] eqn:H3.
  2: { rewrite (metrics_and_chart_Raise fdf u x)
         by (right; right; left; by eexists _, _).
       intros []%Hno. by repeat constructor. }
  destruct (np.format K p ",.2f") as [tp|x] eqn:H4.
  2: { rewrite (metrics_and_chart_Raise fdf u x)
         by (right; right; right; by eexists _, _, _).
       intros []%Hno. by repeat constructor. }
  destruct (np.format K e ",.2f") as [te|x] eqn:H5.
  2: { rewrite (proj1 (metrics_and_chart_Raise_later fdf u p e h tp x
                         H1 H2 H3 H4) H5).
       intros []%Hno. by repeat constructor. }
  destruct (np.format K h ",.0f") as [th|x] eqn:H6.
  2: { rewrite (proj2 (metrics_and_chart_Raise_later fdf u p e h tp x
                         H1 H2 H3 H4) te H5 H6).
       intros []%Hno. by repeat constructor. }
  rewrite (metrics_and_chart_Ok fdf u p e h tp te th) by done. cbn [fst].
  rewrite !elem_of_cons, elem_of_nil.
  intros [Hin|[Hin|[Hin|[Hin|[Hin|[Hin|[Hin|[Hin|[]]]]]]]]];
    try discriminate Hin.
  by injection Hin as ->.
Qed.

(** C4.  When the selections leave no row, the main panel is the warning
    alone: the run displays no metric, no metric selector and no chart, and
    goes on to the raw-data block.  Conversely a display call of the metrics
    branch only ever comes from a filtered frame that has rows. *)
Theorem empty_selection_skips_metrics df u t fdf :
  selectors df u = (t, inr fdf) →
  pd.rows fdf = [] →
  metrics_or_warning K fdf u
  = ([st.ev_warning
        "No data found for the selected filters. Please adjust your selections."],
     inr ())
  ∧ dashboard K df u
    = (t ++ st.ev_warning
          "No data found for the selected filters. Please adjust your selections."
          :: (raw_data fdf u).1,
       inr ())
  ∧ Forall (fun e => st.shows_metrics e = false) (dashboard K df u).1
  ∧ (∀ fdf' u' e, e ∈ (metrics_or_warning K fdf' u').1 →
                  st.shows_metrics e = true → pd.rows fdf' ≠ []).
Proof.
  intros Hsel Hrows.
  assert (metrics_or_warning K fdf u
          = ([st.ev_warning
                "No data found for the selected filters. Please adjust your selections."],
             inr ())) as Hwarn.
  { unfold metrics_or_warning. by rewrite (empty_no_rows _ Hrows). }
  destruct (raw_data_quiet fdf u) as [Hquiet Hraw].
  assert (dashboard K df u
    = (t ++ st.ev_warning
          "No data found for the selected filters. Please adjust your selections."
          :: (raw_data fdf u).1,
       inr ())) as Hdash.
  { unfold dashboard. rewrite Hsel, sbind_value, Hwarn.
    unfold mbind at 2. unfold st.script_bind. cbn [fst snd]. rewrite Hraw. done. }
  split_and!; [done|done| |].
  - rewrite Hdash. cbn [fst]. apply Forall_app. split.
    + pose proof (selectors_quiet df u) as Hq. by rewrite Hsel in Hq.
    + by constructor.
  - intros fdf' u' e He Hshow Hnil. unfold metrics_or_warning in He.
    rewrite (empty_no_rows _ Hnil) in He. cbn in He.
    apply list_elem_of_singleton in He. by subst e.
Qed.

(** C10.  On a table without missing country or source, the selections a
    user who touches nothing gets (every country of the table, every source
    cascaded from them) filter nothing out: the filtered frame is the table
    itself, and the main panel and the raw-data block of that first run work
    on the whole table.  The three metrics are the library's sum, mean and
    sum over every row of the table, in the columns that carry the three
    labels.  When the table has rows, is indexed by the date and has no
    repeated label, the run displays the three metrics, rendered, then the
    metric selector and the chart of the whole table for the first metric,
    then the raw-data box, and finishes; a metric that cannot be computed
    (a label no column carries, a column the library cannot add up) ends
    the run on its exception before any metric is displayed.  When the
    table has no row, the run displays the warning instead. *)
Theorem default_selection_keeps_table df i j :
  pd.get_loc "country" (pd.columns df) = Some i →
  pd.get_loc "source" (pd.columns df) = Some j →
  Forall (fun r => pd.isna (pd.cell i r) = false
                   ∧ pd.isna (pd.cell j r) = false) (pd.rows df) →
  ∃ cs ss,
    countries df = Ok cs
    ∧ sources df cs = Ok ss
    ∧ filtered_df df cs ss = Ok df
    ∧ selectors df st.untouched
      = ([st.ev_title "Water Production Dashboard: Country and Source Analysis";
          st.ev_markdown
            "Analyzing daily production and efficiency metrics over time for water sources.";
          st.ev_sidebar_header "Filter Data";
          st.ev_multiselect "Select Country" cs cs;
          st.ev_multiselect "Select Source" ss ss],
         inr df)
    ∧ dashboard K df st.untouched
      = (selectors df st.untouched ≫= fun _ =>
           metrics_or_warning K df st.untouched ;; raw_data df st.untouched)
    ∧ (∀ kp kps ke kes kh khs,
         pd.positions "Production (m³)" (pd.columns df) = kp :: kps →
         pd.positions "Efficiency (m³/hour)" (pd.columns df) = ke :: kes →
         pd.positions "Service Hours" (pd.columns df) = kh :: khs →
         total_production K df
         = (total ← np.sum K ((fun k => pd.cell k <$> pd.rows df) <$> kp :: kps) ;
            np.truediv K total 1000000)
         ∧ avg_efficiency K df
           = np.mean K ((fun k => pd.cell k <$> pd.rows df) <$> ke :: kes)
         ∧ total_service_hours K df
           = np.sum K ((fun k => pd.cell k <$> pd.rows df) <$> kh :: khs))
    ∧ (∀ p e h tp te th,
         pd.rows df ≠ [] →
         pd.index_name df = Some DATE_COLUMN →
         NoDup (DATE_COLUMN :: pd.columns df) →
         total_production K df = Ok p →
         avg_efficiency K df = Ok e →
         total_service_hours K df = Ok h →
         np.format K p ",.2f" = Ok tp →
         np.format K e ",.2f" = Ok te →
         np.format K h ",.0f" = Ok th →
         dashboard K df st.untouched
         = (page_header
            ++ [st.ev_multiselect "Select Country" cs cs;
                st.ev_multiselect "Select Source" ss ss;
                st.ev_columns 3;
                st.ev_metric 1 "Total Production" (tp +:+ " M m³");
                st.ev_metric 2 "Average Efficiency" (te +:+ " m³/hour");
                st.ev_metric 3 "Total Service Hours" (th +:+ " hours");
                st.ev_markdown "---";
                st.ev_subheader "Production and Efficiency Over Time";
                st.ev_selectbox "Select Metric to Visualize"
                  ["Production (m³)"; "Efficiency (m³/hour)"; "Service Hours"];
                st.ev_altair_chart
                  {| st.chart_data := pd.reset_index df;
                     st.x := "date";
                     st.y := "Production (m³)";
                     st.color := "source";
                     st.tooltip := ["date"; "country"; "source"; "Production (m³)"];
                     st.chart_title := "Production (m³) by Source Over Time" |};
                st.ev_checkbox "Show Raw Data"],
            inr ()))
    ∧ (∀ x,
         pd.rows df ≠ [] →
         total_production K df = Raise x
         ∨ (∃ p, total_production K df = Ok p ∧ avg_efficiency K df = Raise x)
         ∨ (∃ p e, total_production K df = Ok p ∧ avg_efficiency K df = Ok e
                   ∧ total_service_hours K df = Raise x)
         ∨ (∃ p e h, total_production K df = Ok p ∧ avg_efficiency K df = Ok e
                     ∧ total_service_hours K df = Ok h
                     ∧ np.format K p ",.2f" = Raise x) →
         dashboard K df st.untouched
         = (page_header
            ++ [st.ev_multiselect "Select Country" cs cs;
                st.ev_multiselect "Select Source" ss ss;
                st.ev_columns 3],
            inl (st.Uncaught x)))
    ∧ (("Production (m³)" ∉ pd.columns df) →
       total_production K df = Raise (mkExn KeyError "Production (m³)"))
    ∧ (pd.rows df = [] →
       dashboard K df st.untouched
       = (page_header
          ++ [st.ev_multiselect "Select Country" cs cs;
              st.ev_multiselect "Select Source" ss ss;
              no_data_warning;
              st.ev_checkbox "Show Raw Data"],
          inr ())).
Proof.
  intros Hi Hj _.
  assert (filter (fun r => pd.cell i r ∈ pd.unique (pd.cell i <$> pd.rows df))
            (pd.rows df) = pd.rows df) as Hall.
  { apply filter_all, Forall_forall. intros r Hr.
    apply elem_of_unique, list_elem_of_fmap. by exists r. }
  assert (countries df = Ok (pd.unique (pd.cell i <$> pd.rows df))) as Hcs.
  { unfold countries. by rewrite (getitem_loc _ _ _ Hi). }
  assert (sources df (pd.unique (pd.cell i <$> pd.rows df))
          = Ok (pd.unique (pd.cell j <$> pd.rows df))) as Hss.
  { by rewrite (sources_unique _ _ _ _ Hi Hj), Hall. }
  assert (filtered_df df (pd.unique (pd.cell i <$> pd.rows df))
            (pd.unique (pd.cell j <$> pd.rows df)) = Ok df) as Hfdf.
  { rewrite (filtered_df_rows _ _ _ _ _ Hi Hj). destruct df as [nm cols rows].
    cbn [pd.rows pd.columns pd.index_name]. do 2 f_equal.
    apply filter_all, Forall_forall. intros r Hr.
    split; apply elem_of_unique, list_elem_of_fmap; by exists r. }
  assert (selectors df st.untouched
      = ([st.ev_title "Water Production Dashboard: Country and Source Analysis";
          st.ev_markdown
            "Analyzing daily production and efficiency metrics over time for water sources.";
          st.ev_sidebar_header "Filter Data";
          st.ev_multiselect "Select Country" (pd.unique (pd.cell i <$> pd.rows df))
            (pd.unique (pd.cell i <$> pd.rows df));
          st.ev_multiselect "Select Source" (pd.unique (pd.cell j <$> pd.rows df))
            (pd.unique (pd.cell j <$> pd.rows df))],
         inr df)) as Hsel.
  { unfold selectors. rewrite Hcs. cbn. rewrite Hss. cbn. by rewrite Hfdf. }
  assert (pd.rows df ≠ [] → pd.empty df = false) as Hne.
  { intros Hr. apply (not_empty df "country" Hr).
    apply get_loc_Some in Hi. by eapply list_elem_of_lookup_2. }
  eexists _, _. split_and!; [done..| | | | | |].
  - unfold dashboard. by rewrite Hsel.
  - intros kp kps ke kes kh khs Hp He Hh.
    unfold total_production, avg_efficiency, total_service_hours, pd.select.
    by rewrite Hp, He, Hh.
  - intros p e h tp te th Hr _ _ H1 H2 H3 H4 H5 H6.
    unfold dashboard. rewrite Hsel, sbind_value.
    unfold metrics_or_warning. rewrite (Hne Hr). cbn [negb].
    by rewrite (metrics_and_chart_Ok df st.untouched p e h tp te th).
  - intros x Hr Hx.
    unfold dashboard. rewrite Hsel, sbind_value.
    unfold metrics_or_warning. rewrite (Hne Hr). cbn [negb].
    by rewrite (metrics_and_chart_Raise df st.untouched x Hx).
  - intros Hn. unfold total_production. by rewrite (select_missing _ _ Hn).
  - intros Hr. unfold dashboard. rewrite Hsel, sbind_value.
    unfold metrics_or_warning. by rewrite (empty_no_rows _ Hr).
Qed.

End panel.

Lemma empty_selection_skips_metrics_witness :
  Forall (fun e => st.shows_metrics e = false)
    (dashboard exact.kernel example_loaded
       (st.mkUser (Some []) None None false)).1.
Proof.
  exact (proj1 (proj2 (proj2
    (empty_selection_skips_metrics exact.kernel example_loaded
       (st.mkUser (Some []) None None false) _ _ eq_refl eq_refl)))).
Defined.

Lemma default_selection_keeps_table_witness :
  (∃ cs ss, countries example_loaded = Ok cs
            ∧ filtered_df example_loaded cs ss = Ok example_loaded)
  ∧ (dashboard exact.kernel example_loaded st.untouched).1
    = page_header
      ++ [st.ev_multiselect "Select Country"
            [pd.VStr "CountryA"; pd.VStr "CountryB"]
            [pd.VStr "CountryA"; pd.VStr "CountryB"];
          st.ev_multiselect "Select Source"
            [pd.VStr "SourceX"; pd.VStr "SourceY"]
            [pd.VStr "SourceX"; pd.VStr "SourceY"];
          st.ev_columns 3;
          st.ev_metric 1 "Total Production" "3.00 M m³";
          st.ev_metric 2 "Average Efficiency" "15.00 m³/hour";
          st.ev_metric 3 "Total Service Hours" "12 hours";
          st.ev_markdown "---";
          st.ev_subheader "Production and Efficiency Over Time";
          st.ev_selectbox "Select Metric to Visualize"
            ["Production (m³)"; "Efficiency (m³/hour)"; "Service Hours"];
          st.ev_altair_chart
            {| st.chart_data := pd.reset_index example_loaded;
               st.x := "date";
               st.y := "Production (m³)";
               st.color := "source";
               st.tooltip := ["date"; "country"; "source"; "Production (m³)"];
               st.chart_title := "Production (m³) by Source Over Time" |};
          st.ev_checkbox "Show Raw Data"].
Proof.
  assert (Forall (fun r => pd.isna (pd.cell 0 r) = false
                           ∧ pd.isna (pd.cell 1 r) = false)
            (pd.rows example_loaded)) as Hpresent by repeat constructor.
  pose proof (default_selection_keeps_table exact.kernel example_loaded
                0%nat 1%nat eq_refl eq_refl Hpresent)
    as (cs & ss & Hcs & Hss & Hf & _ & _ & _ & Hrun & _).
  split.
  - exists cs, ss. split; [exact Hcs | exact Hf].
  - assert (NoDup (DATE_COLUMN :: pd.columns example_loaded)) as Hlabels
      by (by apply (bool_decide_unpack _)).
    rewrite (Hrun _ _ _ _ _ _ ltac:(discriminate) eq_refl Hlabels
               eq_refl eq_refl eq_refl eq_refl eq_refl eq_refl).
    cbn [fst]. injection Hcs as <-. injection Hss as <-. reflexivity.
Defined.

(** ** Column lookups outside the [try] *)

Section uncaught.

Variable strptime : string → string → option pd.Timestamp.
Variable K : np.kernel.

(** X1.  A readable file with a date column but no country column loads
    without error; the run then ends on the country lookup, outside the
    [try]: the page header is displayed, no error message is, and the
    exception is not caught. *)
Theorem file_without_country_is_uncaught fs header records i u c :
  fs !! FILE_PATH = Some (pd.Delimited header records) →
  pd.get_loc DATE_COLUMN header = Some i →
  Forall (fun r => length r ≤ length header)%nat records →
  "country" ∉ header →
  st.memo c = None →
  ∃ df,
    load_data strptime fs = Ok df
    ∧ ("country" ∉ pd.columns df)
    ∧ (run strptime K fs u c).1
      = ((st.ev_set_page_config "wide") :: page_header,
         inl (st.Uncaught (mkExn KeyError "country"))).
Proof.
  intros Hfile Hloc Hlen Hno Hc. eexists.
  split; [by apply load_data_Ok|].
  pose proof (loaded_without_country header i Hno) as Hcols.
  split; [done|].
  rewrite (run_miss _ _ _ _ _ Hc), (load_data_Ok _ _ _ _ _ Hfile Hloc Hlen).
  cbn [load_or_stop]. rewrite emit_then.
  unfold mret, st.script_ret. rewrite sbind_value. cbn [fst snd app].
  by rewrite dashboard_no_country.
Qed.

End uncaught.

Lemma file_without_country_is_uncaught_witness :
  (run pd.strptime exact.kernel no_country_fs st.untouched st.cold).1.2
  = inl (st.Uncaught (mkExn KeyError "country")).
Proof.
  assert ("country" ∉ no_country_header) as Hno.
  { unfold no_country_header. rewrite !elem_of_cons, elem_of_nil.
    intros [|[|]]; done. }
  assert (Forall (fun r => length r ≤ length no_country_header)%nat
            no_country_records) as Hfit by repeat constructor.
  destruct (file_without_country_is_uncaught pd.strptime exact.kernel
              no_country_fs no_country_header no_country_records
              0%nat st.untouched st.cold eq_refl eq_refl Hfit Hno eq_refl)
    as (df & _ & _ & ->).
  reflexivity.
Defined.

(** X2.  On a table with a country column but no source column, the country
    selector is displayed and the run ends on the source lookup, with an
    exception that is not caught. *)
Theorem missing_source_is_uncaught (K : np.kernel) df u i :
  pd.get_loc "country" (pd.columns df) = Some i →
  ("source" ∉ pd.columns df) →
  ∃ cs, countries df = Ok cs
        ∧ dashboard K df u
          = (page_header ++ [st.ev_multiselect "Select Country" cs cs],
             inl (st.Uncaught (mkExn KeyError "source"))).
Proof.
  intros Hi Hn. eexists. split.
  { unfold countries. by rewrite (getitem_loc _ _ _ Hi). }
  assert (∀ C, sources df C = Raise (mkExn KeyError "source")) as Hs.
  { intros C. unfold sources.
    rewrite (filtered_by_country_rows _ _ _ Hi), bind_Ok.
    by rewrite getitem_missing. }
  unfold dashboard, selectors, countries.
  rewrite (getitem_loc _ _ _ Hi).
  cbn [fmap result_fmap mbind st.script_bind st.emit st.lift st.multiselect
       mret st.script_ret fst snd app].
  by rewrite Hs.
Qed.

Lemma missing_source_is_uncaught_witness :
  (dashboard exact.kernel example_no_source st.untouched).2
  = inl (st.Uncaught (mkExn KeyError "source")).
Proof.
  assert ("source" ∉ pd.columns example_no_source) as Hn.
  { cbn. rewrite !elem_of_cons, elem_of_nil. intros [|[|[|[|]]]]; done. }
  destruct (missing_source_is_uncaught exact.kernel example_no_source
              st.untouched 0%nat eq_refl Hn) as (cs & _ & ->).
  reflexivity.
Defined.

(** ** More on the filter engine *)

Lemma filter_ext_in {A} (P Q : A → Prop) `{∀ x, Decision (P x)}
    `{∀ x, Decision (Q x)} (l : list A) :
  (∀ x, x ∈ l → (P x ↔ Q x)) → filter P l = filter Q l.
Proof.
  induction l as [|a l IH]; intros Hl; [done|].
  rewrite !filter_cons.
  assert (filter P l = filter Q l) as ->.
  { apply IH. intros x Hx. apply Hl. by right. }
  destruct (Hl a) as [H1 H2]; [by left|].
  destruct (decide (P a)); [by rewrite decide_True by tauto|].
  by rewrite decide_False by tauto.
Qed.

Lemma unique_cons v (s : list pd.value) :
  pd.unique (v :: s) = v :: pd.unique_from [v] s.
Proof.
  unfold pd.unique. cbn [pd.unique_from].
  by rewrite decide_False by apply not_elem_of_nil.
Qed.

(** [unique] emits the values not seen so far. *)
Lemma unique_from_filter seen (s : list pd.value) :
  pd.unique_from seen s = filter (fun v => v ∉ seen) (pd.unique s).
Proof.
  revert seen. induction s as [|v s IH]; intros seen; [done|].
  rewrite unique_cons. cbn [pd.unique_from].
  rewrite (IH [v]), filter_cons. destruct (decide (v ∈ seen)) as [Hv|Hv].
  - rewrite decide_False by tauto. rewrite IH.
    rewrite list_filter_filter. apply list_filter_iff. intros x. rewrite ?not_elem_of_cons, ?elem_of_nil; naive_solver.
  - rewrite decide_True by done. f_equal. rewrite IH, list_filter_filter.
    apply list_filter_iff. intros x. rewrite ?not_elem_of_cons, ?elem_of_nil; naive_solver.
Qed.

Lemma unique_app (s1 s2 : list pd.value) :
  pd.unique (s1 ++ s2)
  = (pd.unique s1 ++ filter (fun v => v ∉ s1) (pd.unique s2)).
Proof.
  assert (∀ seen,
            pd.unique_from seen (s1 ++ s2)
            = (pd.unique_from seen s1
               ++ filter (fun v => (v ∉ seen) ∧ (v ∉ s1)) (pd.unique s2)))
    as Hgen.
  { induction s1 as [|v s1 IH]; intros seen.
    - cbn [app pd.unique_from]. rewrite unique_from_filter.
      apply list_filter_iff. intros x. rewrite ?not_elem_of_cons, ?elem_of_nil; naive_solver.
    - cbn [app pd.unique_from]. destruct (decide (v ∈ seen)) as [Hv|Hv].
      + rewrite IH. f_equal. apply list_filter_iff. intros x. rewrite ?not_elem_of_cons, ?elem_of_nil; naive_solver.
      + rewrite IH. cbn [app]. do 2 f_equal. apply list_filter_iff. intros x.
        rewrite ?not_elem_of_cons, ?elem_of_nil; naive_solver. }
  unfold pd.unique at 1 2. rewrite Hgen. f_equal.
  apply list_filter_iff. intros x. rewrite ?not_elem_of_cons, ?elem_of_nil; naive_solver.
Qed.

Lemma unique_sublist (s : list pd.value) : pd.unique s `sublist_of` s.
Proof.
  unfold pd.unique. generalize (@nil pd.value) as seen.
  induction s as [|v s IH]; intros seen; [done|]. cbn [pd.unique_from].
  destruct (decide (v ∈ seen)).
  - by apply sublist_cons.
  - by apply sublist_skip.
Qed.

(** X3.  The country options are the values of the country column, each
    once, in the order in which they first appear in the table: the options
    of the first rows come first, followed by those the later rows add. *)
Theorem countries_first_seen df i :
  pd.get_loc "country" (pd.columns df) = Some i →
  ∃ cs,
    countries df = Ok cs
    ∧ NoDup cs
    ∧ (∀ v, v ∈ cs ↔ ∃ r, r ∈ pd.rows df ∧ pd.cell i r = v)
    ∧ cs `sublist_of` (pd.cell i <$> pd.rows df)
    ∧ (∀ l1 l2, pd.rows df = l1 ++ l2 →
         cs = pd.unique (pd.cell i <$> l1)
              ++ filter (fun v => v ∉ pd.cell i <$> l1)
                   (pd.unique (pd.cell i <$> l2))).
Proof.
  intros Hi. eexists. split.
  { unfold countries. by rewrite (getitem_loc _ _ _ Hi). }
  split_and!.
  - apply NoDup_unique.
  - intros v. rewrite elem_of_unique, list_elem_of_fmap. naive_solver.
  - apply unique_sublist.
  - intros l1 l2 ->. by rewrite fmap_app, unique_app.
Qed.

Lemma countries_first_seen_witness :
  ∃ cs, countries example_table = Ok cs ∧ NoDup cs.
Proof.
  destruct (countries_first_seen example_table 0%nat eq_refl)
    as (cs & Hcs & Hnd & _).
  exists cs. split; [exact Hcs | exact Hnd].
Defined.

(** X4.  Narrowing the country selection never adds a source to the
    options, and every option is a source of the table. *)
Theorem sources_monotone df (C C' : list pd.value) i j ss :
  pd.get_loc "country" (pd.columns df) = Some i →
  pd.get_loc "source" (pd.columns df) = Some j →
  (∀ v, v ∈ C → v ∈ C') →
  sources df C = Ok ss →
  ∃ ss',
    sources df C' = Ok ss'
    ∧ (∀ v, v ∈ ss → v ∈ ss')
    ∧ (∀ v, v ∈ ss → v ∈ pd.unique (pd.cell j <$> pd.rows df)).
Proof.
  intros Hi Hj Hsub Hss. rewrite (sources_unique _ _ _ _ Hi Hj) in Hss.
  injection Hss as <-. eexists. split; [by apply sources_unique|].
  split; intros v; rewrite !elem_of_unique, !list_elem_of_fmap;
    intros (r & -> & Hr); exists r; split; try done;
    apply list_elem_of_filter in Hr as [HC Hr]; [|done].
  apply list_elem_of_filter. auto.
Qed.

Lemma sources_monotone_witness :
  ∃ ss', sources example_table [pd.VStr "A"; pd.VStr "B"] = Ok ss'
         ∧ pd.VStr "Y" ∈ ss'.
Proof.
  destruct (sources_monotone example_table [pd.VStr "A"]
              [pd.VStr "A"; pd.VStr "B"] 0%nat 1%nat
              [pd.VStr "X"; pd.VStr "Y"] eq_refl eq_refl)
    as (ss' & Hs & Hsub & _).
  - intros v Hv. apply list_elem_of_singleton in Hv as ->.
    apply list_elem_of_here.
  - reflexivity.
  - exists ss'. split; [exact Hs|]. apply Hsub.
    apply list_elem_of_further, list_elem_of_here.
Defined.

(** X5.  With the source selector left on its default (all the sources
    offered), the filter is the filter by country, whatever countries are
    selected. *)
Theorem untouched_sources_filter_by_country df (C : list pd.value) i j :
  pd.get_loc "country" (pd.columns df) = Some i →
  pd.get_loc "source" (pd.columns df) = Some j →
  ∃ ss by_country,
    sources df C = Ok ss
    ∧ filtered_by_country df C = Ok by_country
    ∧ filtered_df df C ss = Ok by_country.
Proof.
  intros Hi Hj. eexists _, _. split; [by apply sources_unique|].
  split; [by apply filtered_by_country_rows|].
  rewrite (filtered_df_rows _ _ _ _ _ Hi Hj). do 2 f_equal.
  apply filter_ext_in. intros r Hr. split; [tauto|]. intros HC.
  split; [done|]. apply elem_of_unique, list_elem_of_fmap.
  exists r. split; [done|]. by apply list_elem_of_filter.
Qed.

Lemma untouched_sources_filter_by_country_witness :
  ∃ ss, sources example_table [pd.VStr "A"] = Ok ss
        ∧ filtered_df example_table [pd.VStr "A"] ss
          = filtered_by_country example_table [pd.VStr "A"].
Proof.
  destruct (untouched_sources_filter_by_country example_table [pd.VStr "A"]
              0%nat 1%nat eq_refl eq_refl)
    as (ss & bc & Hs & Hbc & Hf).
  exists ss. split; [exact Hs|]. by rewrite Hf, Hbc.
Defined.

(** X6.  Filtering a filtered frame again is filtering the table once by
    the selections the two filters share; filtering again by the same
    selections changes nothing. *)
Theorem filtered_df_twice df (C S C2 S2 : list pd.value) i j fdf :
  pd.get_loc "country" (pd.columns df) = Some i →
  pd.get_loc "source" (pd.columns df) = Some j →
  filtered_df df C S = Ok fdf →
  filtered_df fdf C2 S2
  = filtered_df df (list_intersection C C2) (list_intersection S S2)
  ∧ filtered_df fdf C S = Ok fdf.
Proof.
  intros Hi Hj Hf. rewrite (filtered_df_rows _ _ _ _ _ Hi Hj) in Hf.
  injection Hf as <-. split.
  - rewrite (filtered_df_rows _ C2 S2 i j), (filtered_df_rows _ _ _ i j);
      [|done..].
    cbn [pd.index_name pd.columns pd.rows]. do 2 f_equal.
    rewrite list_filter_filter. apply list_filter_iff. intros r.
    rewrite !list_elem_of_intersection. tauto.
  - rewrite (filtered_df_rows _ C S i j); [|done..].
    cbn [pd.index_name pd.columns pd.rows]. do 2 f_equal.
    rewrite list_filter_filter. apply list_filter_iff. tauto.
Qed.

Lemma filtered_df_twice_witness :
  ∃ fdf, filtered_df example_table [pd.VStr "A"; pd.VStr "B"] [pd.VStr "X"]
         = Ok fdf
         ∧ filtered_df fdf [pd.VStr "A"] [pd.VStr "X"; pd.VStr "Y"]
           = filtered_df example_table [pd.VStr "A"] [pd.VStr "X"].
Proof.
  eexists. split; [reflexivity|].
  exact (proj1 (filtered_df_twice example_table [pd.VStr "A"; pd.VStr "B"]
                  [pd.VStr "X"] [pd.VStr "A"] [pd.VStr "X"; pd.VStr "Y"]
                  0%nat 1%nat _ eq_refl eq_refl eq_refl)).
Defined.

(** X7.  Widening the selections never loses a row: the rows of the
    narrower filter are among those of the wider one, in the same order. *)
Theorem filtered_df_monotone df (C S C2 S2 : list pd.value) i j fdf :
  pd.get_loc "country" (pd.columns df) = Some i →
  pd.get_loc "source" (pd.columns df) = Some j →
  (∀ v, v ∈ C → v ∈ C2) →
  (∀ v, v ∈ S → v ∈ S2) →
  filtered_df df C S = Ok fdf →
  ∃ fdf2, filtered_df df C2 S2 = Ok fdf2
          ∧ pd.rows fdf `sublist_of` pd.rows fdf2.
Proof.
  intros Hi Hj HC HS Hf. rewrite (filtered_df_rows _ _ _ _ _ Hi Hj) in Hf.
  injection Hf as <-. eexists. split; [by apply filtered_df_rows|].
  cbn [pd.rows].
  rewrite <- (list_filter_filter_l (fun r => pd.cell i r ∈ C ∧ pd.cell j r ∈ S)
                (fun r => pd.cell i r ∈ C2 ∧ pd.cell j r ∈ S2)).
  - apply sublist_filter.
  - intros r [? ?]. auto.
Qed.

Lemma filtered_df_monotone_witness :
  ∃ fdf2, filtered_df example_table [pd.VStr "A"; pd.VStr "B"] [pd.VStr "X"]
          = Ok fdf2
          ∧ [(jan 1, [pd.VStr "A"; pd.VStr "X"; num 1; num 1; num 1])]
            `sublist_of` pd.rows fdf2.
Proof.
  assert (∀ v, v ∈ [pd.VStr "A"] → v ∈ [pd.VStr "A"; pd.VStr "B"]) as HC.
  { intros v Hv. apply list_elem_of_singleton in Hv as ->.
    apply list_elem_of_here. }
  assert (∀ v, v ∈ [pd.VStr "X"] → v ∈ [pd.VStr "X"]) as HS by auto.
  exact (filtered_df_monotone example_table [pd.VStr "A"] [pd.VStr "X"]
           [pd.VStr "A"; pd.VStr "B"] [pd.VStr "X"] 0%nat 1%nat
           {| pd.index_name := Some "date";
              pd.columns := loaded_columns;
              pd.rows := [(jan 1, [pd.VStr "A"; pd.VStr "X";
                                   num 1; num 1; num 1])] |}
           eq_refl eq_refl HC HS eq_refl).
Defined.

(** ** More on the main panel *)

Lemma omap_lookup_nil {A} (positions : list nat) :
  omap (fun i => @nil A !! i) positions = [].
Proof. induction positions as [|p ps IH]; [done|]. by destruct p. Qed.

(** The selectors, once the two column lookups are known to succeed. *)
Lemma selectors_value df u i j :
  pd.get_loc "country" (pd.columns df) = Some i →
  pd.get_loc "source" (pd.columns df) = Some j →
  ∃ cs C ss S fdf,
    countries df = Ok cs
    ∧ sources df C = Ok ss
    ∧ filtered_df df C S = Ok fdf
    ∧ (st.countries_picked u = Some [] → C = [] ∧ ss = [] ∧ S = [])
    ∧ selectors df u
      = (page_header ++ [st.ev_multiselect "Select Country" cs cs;
                         st.ev_multiselect "Select Source" ss ss],
         inr fdf).
Proof.
  intros Hi Hj.
  set (cs := pd.unique (pd.cell i <$> pd.rows df)).
  set (C := match st.countries_picked u with
            | None => cs
            | Some positions => omap (fun k => cs !! k) positions
            end).
  set (ss := pd.unique (pd.cell j <$>
                          filter (fun r => pd.cell i r ∈ C) (pd.rows df))).
  set (S := match st.sources_picked u with
            | None => ss
            | Some positions => omap (fun k => ss !! k) positions
            end).
  assert (countries df = Ok cs) as Hcs.
  { unfold countries. by rewrite (getitem_loc _ _ _ Hi). }
  assert (sources df C = Ok ss) as Hss by by apply sources_unique.
  pose proof (filtered_df_rows df C S i j Hi Hj) as Hf.
  eexists cs, C, ss, S, _. split_and!; [done|done|exact Hf| |].
  - intros Hpick. assert (C = []) as HC by (unfold C; by rewrite Hpick).
    assert (ss = []) as Hnil.
    { unfold ss. rewrite HC, filter_none; [done|].
      intros r. apply not_elem_of_nil. }
    split_and!; [done|done|]. unfold S. rewrite Hnil.
    destruct (st.sources_picked u); [apply omap_lookup_nil|done].
  - unfold selectors. rewrite Hcs.
    cbn [mbind st.script_bind st.emit st.lift st.multiselect
         mret st.script_ret fst snd app]. fold C. rewrite Hss.
    cbn [mbind st.script_bind st.emit st.lift st.multiselect
         mret st.script_ret fst snd app]. fold S. by rewrite Hf.
Qed.

(** X8.  With every country deselected no source is offered, and whatever
    the source widget holds the dashboard shows the warning, then the
    raw-data block over a frame without rows, and finishes. *)
Theorem no_country_warns (K : np.kernel) df u i j :
  pd.get_loc "country" (pd.columns df) = Some i →
  pd.get_loc "source" (pd.columns df) = Some j →
  st.countries_picked u = Some [] →
  ∃ cs,
    countries df = Ok cs
    ∧ dashboard K df u
      = (page_header
         ++ [st.ev_multiselect "Select Country" cs cs;
             st.ev_multiselect "Select Source" [] [];
             no_data_warning]
         ++ (raw_data {| pd.index_name := pd.index_name df;
                         pd.columns := pd.columns df;
                         pd.rows := [] |} u).1,
         inr ()).
Proof.
  intros Hi Hj Hpick.
  destruct (selectors_value df u i j Hi Hj)
    as (cs & C & ss & S & fdf & Hcs & _ & Hf & Hnil & Hsel).
  destruct (Hnil Hpick) as (-> & -> & ->).
  rewrite (filtered_df_rows _ _ _ _ _ Hi Hj) in Hf. injection Hf as <-.
  rewrite filter_none in Hsel by (intros r [[]%not_elem_of_nil _]).
  exists cs. split; [done|].
  unfold dashboard. rewrite Hsel, sbind_value.
  unfold metrics_or_warning.
  rewrite empty_no_rows by done. cbn [negb].
  destruct (raw_data_quiet {| pd.index_name := pd.index_name df;
                              pd.columns := pd.columns df;
                              pd.rows := [] |} u) as [_ Hraw].
  rewrite emit_then. cbn [fst snd]. rewrite Hraw.
  unfold no_data_warning. by rewrite <- !app_assoc.
Qed.

Lemma no_country_warns_witness :
  count_events is_metric
    (dashboard exact.kernel example_loaded
       (st.mkUser (Some []) (Some [0%nat]) None false)).1
  = 0%nat.
Proof.
  destruct (no_country_warns exact.kernel example_loaded
              (st.mkUser (Some []) (Some [0%nat]) None false) 0%nat 1%nat
              eq_refl eq_refl eq_refl) as (cs & _ & ->).
  reflexivity.
Defined.

Lemma metric_columns_app t1 t2 :
  metric_columns (t1 ++ t2) = metric_columns t1 ++ metric_columns t2.
Proof. apply omap_app. Qed.

Lemma metric_columns_quiet t :
  Forall (fun e => st.shows_metrics e = false) t → metric_columns t = [].
Proof.
  induction 1 as [|e t He _ IH]; [done|].
  destruct e; try discriminate He; exact IH.
Qed.

Lemma chart_not_quiet t ch :
  Forall (fun e => st.shows_metrics e = false) t → st.ev_altair_chart ch ∉ t.
Proof.
  intros Ht Hin. rewrite Forall_forall in Ht. by specialize (Ht _ Hin).
Qed.

Lemma sbind_halt {A B} (t : list st.event) (h : st.halt)
    (k : A → st.script B) :
  ((t, inl h) ≫= k) = (t, inl h).
Proof. done. Qed.

Section order.
Variable K : np.kernel.

Lemma metrics_and_chart_shape fdf u :
  (metric_columns (metrics_and_chart K fdf u).1 = [1; 2; 3]%nat
   ∧ (metrics_and_chart K fdf u).2 = inr ())
  ∨ (metric_columns (metrics_and_chart K fdf u).1 `prefix_of` [1; 2; 3]%nat
     ∧ (∀ ch, st.ev_altair_chart ch ∉ (metrics_and_chart K fdf u).1)
     ∧ ∃ x, (metrics_and_chart K fdf u).2 = inl (st.Uncaught x)).
Proof.
  assert (∀ (t : list st.event) ch,
            Forall (fun e => ∀ c, e ≠ st.ev_altair_chart c) t →
            st.ev_altair_chart ch ∉ t) as Hno.
  { intros t ch Ht Hin. rewrite Forall_forall in Ht. by apply (Ht _ Hin ch). }
  destruct (total_production K fdf) as [p|x] eqn:H1.
  2: { right. rewrite (metrics_and_chart_Raise K fdf u x) by by left.
       split_and!; [by exists [1; 2; 3]%nat| |by eexists].
       intros ch. apply Hno. by repeat constructor. }
  destruct (avg_efficiency K fdf) as [e|x] eqn:H2.
  2: { right.
       rewrite (metrics_and_chart_Raise K fdf u x) by (right; left; by eexists).
       split_and!; [by exists [1; 2; 3]%nat| |by eexists].
       intros ch. apply Hno. by repeat constructor. }
  destruct (total_service_hours K fdf) as [h|x] eqn:H3.
  2: { right.
       rewrite (metrics_and_chart_Raise K fdf u x)
         by (right; right; left; by eexists _, _).
       split_and!; [by exists [1; 2; 3]%nat| |by eexists].
       intros ch. apply Hno. by repeat constructor. }
  destruct (np.format K p ",.2f") as [tp|x] eqn:H4.
  2: { right.
       rewrite (metrics_and_chart_Raise K fdf u x)
         by (right; right; right; by eexists _, _, _).
       split_and!; [by exists [1; 2; 3]%nat| |by eexists].
       intros ch. apply Hno. by repeat constructor. }
  destruct (np.format K e ",.2f") as [te|x] eqn:H5.
  2: { right.
       rewrite (proj1 (metrics_and_chart_Raise_later K fdf u p e h tp x
                         H1 H2 H3 H4) H5).
       split_and!; [by exists [2; 3]%nat| |by eexists].
       intros ch. apply Hno. by repeat constructor. }
  destruct (np.format K h ",.0f") as [th|x] eqn:H6.
  2: { right.
       rewrite (proj2 (metrics_and_chart_Raise_later K fdf u p e h tp x
                         H1 H2 H3 H4) te H5 H6).
       split_and!; [by exists [3]%nat| |by eexists].
       intros ch. apply Hno. by repeat constructor. }
  left. by rewrite (metrics_and_chart_Ok K fdf u p e h tp te th).
Qed.

(** X9.  In any run of the dashboard the metrics displayed are the first
    of the three, in their order: none, the first, the first two or all
    three; a metric that cannot be rendered ends the run after those before
    it.  The chart comes only after all three. *)
Theorem metrics_in_order df u :
  metric_columns (dashboard K df u).1 `prefix_of` [1; 2; 3]%nat
  ∧ (∀ ch, st.ev_altair_chart ch ∈ (dashboard K df u).1 →
           metric_columns (dashboard K df u).1 = [1; 2; 3]%nat).
Proof.
  unfold dashboard.
  pose proof (selectors_quiet df u) as Hsel.
  destruct (selectors df u) as [t [x|fdf]].
  { rewrite sbind_halt. cbn [fst snd] in *. split.
    - rewrite (metric_columns_quiet _ Hsel). by exists [1; 2; 3]%nat.
    - intros ch Hin. by apply (chart_not_quiet _ ch) in Hsel. }
  rewrite sbind_value. cbn [fst snd] in *.
  destruct (raw_data_quiet fdf u) as [Hq Hraw].
  rewrite metric_columns_app, (metric_columns_quiet _ Hsel). cbn [app].
  unfold metrics_or_warning. destruct (negb (pd.empty fdf)).
  - destruct (metrics_and_chart_shape fdf u) as [[Hm Hfin]|(Hm & Hch & x & Hx)].
    + destruct (metrics_and_chart K fdf u) as [tm rm]. cbn [fst snd] in *.
      subst rm. rewrite sbind_value. cbn [fst snd].
      rewrite metric_columns_app, Hm, (metric_columns_quiet _ Hq).
      done.
    + destruct (metrics_and_chart K fdf u) as [tm rm]. cbn [fst snd] in *.
      subst rm. rewrite sbind_halt. cbn [fst snd].
      split; [done|]. intros ch Hin. exfalso.
      apply elem_of_app in Hin as [Hin|Hin].
      * by apply (chart_not_quiet _ ch) in Hsel.
      * by apply (Hch ch).
  - rewrite emit_then. cbn [fst snd].
    change (?e :: ?l) with ([e] ++ l).
    rewrite metric_columns_app, (metric_columns_quiet _ Hq).
    split; [by exists [1; 2; 3]%nat|]. intros ch Hin. exfalso.
    apply elem_of_app in Hin as [Hin|Hin].
    + by apply (chart_not_quiet _ ch) in Hsel.
    + apply elem_of_app in Hin as [Hin|Hin].
      * apply list_elem_of_singleton in Hin. discriminate Hin.
      * by apply (chart_not_quiet _ ch) in Hq.
Qed.

End order.

(** X11.  On a frame indexed by the date that has the country, source and
    metric columns, every field the chart encodes (x, y, colour, tooltip) is
    a column of the data it is given, the y field is one of the three
    metrics, and the data has one row per row of the filtered frame, each
    made of the row's date followed by its cells. *)
Theorem chart_fields_are_columns (K : np.kernel) fdf u ch :
  pd.index_name fdf = Some DATE_COLUMN →
  "country" ∈ pd.columns fdf →
  "source" ∈ pd.columns fdf →
  Forall (fun c => c ∈ pd.columns fdf) metric_options →
  (∀ k, st.metric_picked u = Some k → (k < 3)%nat) →
  st.ev_altair_chart ch ∈ (metrics_and_chart K fdf u).1 →
  chart_fields_exist ch
  ∧ st.y ch ∈ metric_options
  ∧ length (pd.rows (st.chart_data ch)) = length (pd.rows fdf)
  ∧ Forall (fun r => ∃ row, row ∈ pd.rows fdf ∧ r.2 = row.1 :: row.2)
      (pd.rows (st.chart_data ch)).
Proof.
  intros Hidx Hc Hs Hm Hpick Hin.
  apply metrics_and_chart_chart in Hin as ->.
  cbn [st.chart_data st.x st.y st.color st.tooltip].
  assert (default "" (metric_options !! default 0%nat (st.metric_picked u))
          ∈ metric_options) as Hy.
  { unfold metric_options.
    destruct (st.metric_picked u) as [k|] eqn:Hk; cbn [default].
    - specialize (Hpick k eq_refl).
      destruct k as [|[|[|k]]]; [| | |lia]; cbn;
        rewrite !elem_of_cons; tauto.
    - cbn. rewrite !elem_of_cons; tauto. }
  assert (∀ c, c ∈ pd.columns fdf → c ∈ pd.columns (pd.reset_index fdf))
    as Hkeep.
  { intros c Hcin. cbn. by apply list_elem_of_further. }
  assert (DATE_COLUMN ∈ pd.columns (pd.reset_index fdf)) as Hdate.
  { cbn. rewrite Hidx. apply list_elem_of_here. }
  assert (default "" (metric_options !! default 0%nat (st.metric_picked u))
          ∈ pd.columns (pd.reset_index fdf)) as Hycol.
  { apply Hkeep. rewrite Forall_forall in Hm. by apply Hm. }
  split_and!.
  - unfold chart_fields_exist.
    cbn [st.chart_data st.x st.y st.color st.tooltip].
    repeat (constructor; [by auto|]). constructor.
  - done.
  - unfold pd.reset_index. cbn [pd.rows]. apply length_imap.
  - unfold pd.reset_index. cbn [pd.rows]. apply Forall_forall.
    intros r [k [row [-> Hrow]]]%elem_of_lookup_imap.
    exists row. split; [|done]. by eapply list_elem_of_lookup_2.
Qed.

Lemma chart_fields_are_columns_witness :
  ∃ ch, st.ev_altair_chart ch
          ∈ (metrics_and_chart exact.kernel example_loaded st.untouched).1
        ∧ chart_fields_exist ch.
Proof.
  pose proof (metrics_and_chart_Ok exact.kernel example_loaded st.untouched
                _ _ _ _ _ _ eq_refl eq_refl eq_refl eq_refl eq_refl eq_refl)
    as Heq.
  eexists. split.
  { rewrite Heq. cbn [fst]. do 7 apply list_elem_of_further.
    apply list_elem_of_here. }
  refine (proj1 (chart_fields_are_columns exact.kernel example_loaded
                   st.untouched _ eq_refl _ _ _ _ _)).
  - unfold example_loaded, loaded_columns. cbn [pd.columns].
    rewrite !elem_of_cons. tauto.
  - unfold example_loaded, loaded_columns. cbn [pd.columns].
    rewrite !elem_of_cons. tauto.
  - unfold example_loaded, loaded_columns, metric_options. cbn [pd.columns].
    repeat (constructor; [rewrite !elem_of_cons; tauto|]). constructor.
  - intros k Hk. discriminate Hk.
  - rewrite Heq. cbn [fst]. do 7 apply list_elem_of_further.
    apply list_elem_of_here.
Defined.

(** ** More on the frames *)

Lemma get_loc_head name cols : pd.get_loc name (name :: cols) = Some 0%nat.
Proof. unfold pd.get_loc. cbn. by rewrite decide_True. Qed.

(** X12.  The chart data loses nothing: indexing it by the date again
    ([set_index] after [reset_index]) gives back the frame. *)
Theorem set_index_reset_index df name :
  pd.index_name df = Some name →
  pd.set_index (pd.reset_index df) name = Ok df.
Proof.
  intros Hname. unfold pd.set_index, pd.reset_index.
  cbn [pd.columns pd.rows pd.index_name]. rewrite Hname.
  cbn [default]. rewrite get_loc_head. destruct df as [nm cols rows].
  cbn in Hname. subst nm. cbn [pd.columns pd.rows pd.index_name].
  do 2 f_equal. rewrite fmap_imap. unfold compose, pd.cell. cbn.
  induction rows as [|[idx cells] rows IH]; [done|]. cbn [imap].
  f_equal. exact IH.
Qed.

Lemma set_index_reset_index_witness :
  pd.set_index (pd.reset_index example_loaded) "date" = Ok example_loaded.
Proof. exact (set_index_reset_index example_loaded "date" eq_refl). Defined.

(** X13.  The head of a frame of at most 100 rows is the frame itself, so
    the raw-data table then shows every row; and taking the head twice is
    taking it once. *)
Theorem head_small_frame fdf :
  (length (pd.rows fdf) ≤ 100)%nat →
  pd.head 100 fdf = fdf
  ∧ ∀ n fdf', pd.head n (pd.head n fdf') = pd.head n fdf'.
Proof.
  intros Hlen. split.
  - destruct fdf as [nm cols rows]. unfold pd.head.
    cbn [pd.index_name pd.columns pd.rows] in *. f_equal. by apply take_ge.
  - intros n fdf'. unfold pd.head. cbn [pd.index_name pd.columns pd.rows].
    f_equal. by rewrite take_take, Nat.min_id.
Qed.

Lemma head_small_frame_witness :
  pd.head 100 example_table = example_table.
Proof.
  apply (head_small_frame example_table). cbn. lia.
Defined.

(** ** More on the memoized loader *)

Section sessions.

Variable strptime : string → string → option pd.Timestamp.
Variable K : np.kernel.

Lemma run_warm fs u df n :
  run strptime K fs u (st.mkCache (Some df) n)
  = (st.emit (st.ev_set_page_config "wide") ;; dashboard K df u,
     st.mkCache (Some df) n).
Proof. done. Qed.

(** X14.  Once the table is memoized a run never looks at the file
    system: over a whole session every run displays the dashboard of the
    memoized table, the memo and the execution count stay as they are, and
    two file systems give the same run. *)
Theorem warm_session_ignores_files steps df n :
  session strptime K steps (st.mkCache (Some df) n)
  = ((fun step => st.emit (st.ev_set_page_config "wide") ;;
                  dashboard K df step.2) <$> steps,
     st.mkCache (Some df) n)
  ∧ ∀ fs fs' u, run strptime K fs u (st.mkCache (Some df) n)
                = run strptime K fs' u (st.mkCache (Some df) n).
Proof.
  split; [|done].
  induction steps as [|[fs u] steps IH]; [done|].
  cbn [session]. rewrite run_warm, IH. done.
Qed.

(** X15.  A load that raises is not memoized: the run stops, the memo
    stays empty, and the next run executes [load_data] again; the table it
    then returns is displayed and memoized. *)
Theorem failed_load_is_retried fs fs' u u' e df n :
  load_data strptime fs = Raise e →
  load_data strptime fs' = Ok df →
  (run strptime K fs u (st.mkCache None n)).2 = st.mkCache None (S n)
  ∧ (run strptime K fs u (st.mkCache None n)).1.2 = inl st.Stopped
  ∧ session strptime K [(fs, u); (fs', u')] (st.mkCache None n)
    = ([(run strptime K fs u (st.mkCache None n)).1;
        (st.emit (st.ev_set_page_config "wide") ;; dashboard K df u')],
       st.mkCache (Some df) (S (S n))).
Proof.
  intros Hraise Hok.
  assert (run strptime K fs u (st.mkCache None n)
          = ((run strptime K fs u (st.mkCache None n)).1, st.mkCache None (S n)))
    as Hrun.
  { unfold run, load_data_cached, st.cache_data. cbn [st.memo st.executions].
    by rewrite Hraise. }
  assert (run strptime K fs' u' (st.mkCache None (S n))
          = (st.emit (st.ev_set_page_config "wide") ;; dashboard K df u',
             st.mkCache (Some df) (S (S n)))) as Hrun'.
  { unfold run, load_data_cached, st.cache_data. cbn [st.memo st.executions].
    by rewrite Hok. }
  split_and!.
  - by rewrite Hrun.
  - rewrite (run_miss strptime K fs u (st.mkCache None n) eq_refl), Hraise.
    destruct e as [[] msg]; done.
  - cbn [session]. rewrite Hrun, Hrun'. done.
Qed.

End sessions.

Lemma failed_load_is_retried_witness :
  (session pd.strptime exact.kernel
     [(∅, st.untouched); (example_fs, st.untouched)] st.cold).2
  = st.mkCache (Some example_loaded) 2.
Proof.
  pose proof (failed_load_is_retried pd.strptime exact.kernel ∅ example_fs
                st.untouched st.untouched _ example_loaded 0 eq_refl eq_refl)
    as (_ & _ & Hs).
  unfold st.cold. by rewrite Hs.
Defined.

(** ** More on the loader *)

Section loaded.

Variable strptime : string → string → option pd.Timestamp.

Lemma length_cells header records (r : list pd.value) :
  (length r ≤ pd.table_width header records)%nat →
  length (cells header records r) = length header.
Proof.
  intros Hr. unfold cells. rewrite length_drop, length_padded by done.
  pose proof (table_width_ge header records). lia.
Qed.

Lemma length_delete_lt {A} (i : nat) (l : list A) :
  (i < length l)%nat → length (delete i l) = pred (length l).
Proof.
  revert i. induction l as [|a l IH]; intros [|i] Hi; cbn in *; try lia.
  rewrite IH by lia. lia.
Qed.

(** X16.  The table [load_data] returns is rectangular (every row has one
    cell per column), and stays so through the filter, the head and the
    chart data. *)
Theorem loaded_table_is_rectangular fs header records i df :
  fs !! FILE_PATH = Some (pd.Delimited header records) →
  pd.get_loc DATE_COLUMN header = Some i →
  load_data strptime fs = Ok df →
  rectangular df
  ∧ (∀ C S fdf, filtered_df df C S = Ok fdf →
       rectangular fdf
       ∧ rectangular (pd.head 100 fdf)
       ∧ rectangular (pd.reset_index fdf)).
Proof.
  intros Hfile Hloc Hload.
  destruct (decide (Forall (fun r => length r ≤ pd.table_width header records)%nat
                      records))
    as [Hlen|Hlen].
  2: { destruct (load_data_malformed strptime fs header records Hfile)
         as (e & He & _); [by right|]. congruence. }
  rewrite (load_data_wide _ _ _ _ _ Hfile Hloc Hlen) in Hload.
  injection Hload as <-.
  assert (i < length header)%nat as Hi.
  { apply get_loc_Some in Hloc. by apply lookup_lt_Some in Hloc. }
  set (df := {| pd.index_name := Some DATE_COLUMN |}).
  assert (rectangular df) as Hrect.
  { unfold rectangular, df. cbn [pd.rows pd.columns].
    rewrite length_fmap, length_delete_lt by done.
    apply Forall_fmap, Forall_forall.
    intros r [_ Hr]%list_elem_of_filter. cbn [snd].
    apply list_elem_of_fmap in Hr as (r0 & -> & Hr0).
    rewrite Forall_forall in Hlen. unfold compose. cbn [snd].
    rewrite length_delete_lt; rewrite length_cells; auto. }
  split; [done|]. intros C S fdf Hf.
  unfold filtered_df in Hf.
  destruct (pd.getitem df "country") as [c|]; [|done].
  destruct (pd.getitem df "source") as [s|]; [|done].
  rewrite !bind_Ok in Hf. injection Hf as <-.
  assert (rectangular (pd.getitem_mask df
            (pd.mask_and (pd.isin c C) (pd.isin s S)))) as Hfr.
  { unfold rectangular, pd.getitem_mask in *. cbn [pd.rows pd.columns] in *.
    apply Forall_fmap, Forall_forall.
    intros [r b] [_ Hr]%list_elem_of_filter. cbn [fst].
    apply elem_of_zip_l in Hr. rewrite Forall_forall in Hrect. by apply Hrect. }
  split_and!; [done| |].
  - unfold rectangular, pd.head in *. cbn [pd.rows pd.columns] in *.
    by apply Forall_take.
  - unfold rectangular, pd.reset_index in *. cbn [pd.rows pd.columns] in *.
    apply Forall_forall. intros r [k [row [-> Hrow]]]%elem_of_lookup_imap.
    cbn [snd length]. f_equal. rewrite Forall_forall in Hfr.
    apply Hfr. by eapply list_elem_of_lookup_2.
Qed.

(** X17.  The loaded table has one column less than the file: every
    column of the file but the date is a column of the loaded table, under
    its display label, and when the header has no repeated label the loaded
    table has no date column. *)
Theorem loaded_table_columns fs header records i df :
  fs !! FILE_PATH = Some (pd.Delimited header records) →
  pd.get_loc DATE_COLUMN header = Some i →
  load_data strptime fs = Ok df →
  pd.columns df = display <$> delete i header
  ∧ length (pd.columns df) = pred (length header)
  ∧ (∀ c, c ∈ header → c ≠ DATE_COLUMN → display c ∈ pd.columns df)
  ∧ (NoDup header → DATE_COLUMN ∉ pd.columns df).
Proof.
  intros Hfile Hloc Hload.
  destruct (decide (Forall (fun r => length r ≤ pd.table_width header records)%nat
                      records))
    as [Hlen|Hlen].
  2: { destruct (load_data_malformed strptime fs header records Hfile)
         as (e & He & _); [by right|]. congruence. }
  rewrite (load_data_wide _ _ _ _ _ Hfile Hloc Hlen) in Hload.
  injection Hload as <-. cbn [pd.columns].
  pose proof (get_loc_Some _ _ _ Hloc) as Hat.
  assert (i < length header)%nat as Hi by by apply lookup_lt_Some in Hat.
  assert ((fun c => default c (display_names !! c)) <$> delete i header
          = display <$> delete i header) as ->.
  { apply list_fmap_ext. intros ? c _. apply display_names_display. }
  assert (∀ c, c ∈ header → c ≠ DATE_COLUMN → c ∈ delete i header) as Hkeep.
  { intros c [k Hk]%list_elem_of_lookup_1 Hne.
    assert (k ≠ i) as Hki by (intros ->; congruence).
    destruct (decide (k < i)%nat).
    - apply (list_elem_of_lookup_2 _ k). by rewrite list_lookup_delete_lt.
    - apply (list_elem_of_lookup_2 _ (pred k)).
      rewrite list_lookup_delete_ge by lia.
      replace (S (pred k)) with k by lia. done. }
  split_and!.
  - done.
  - by rewrite length_fmap, length_delete_lt.
  - intros c Hc Hne. apply list_elem_of_fmap. exists c. auto.
  - intros Hnd Hin. apply list_elem_of_fmap in Hin as (c & Hc & Hin).
    assert (c = DATE_COLUMN) as ->.
    { unfold display in Hc. repeat case_decide; subst; done. }
    apply list_elem_of_lookup_1 in Hin as [k Hk].
    destruct (decide (k < i)%nat).
    + rewrite list_lookup_delete_lt in Hk by done.
      pose proof (NoDup_lookup _ _ _ _ Hnd Hk Hat). lia.
    + rewrite list_lookup_delete_ge in Hk by lia.
      pose proof (NoDup_lookup _ _ _ _ Hnd Hk Hat). lia.
Qed.

End loaded.

Lemma loaded_table_is_rectangular_witness : rectangular example_loaded.
Proof.
  exact (proj1 (loaded_table_is_rectangular pd.strptime example_fs
                  example_header example_records 0%nat example_loaded
                  eq_refl eq_refl eq_refl)).
Defined.

Lemma loaded_table_columns_witness :
  "Service Hours" ∈ pd.columns example_loaded.
Proof.
  refine (proj1 (proj2 (proj2 (loaded_table_columns pd.strptime example_fs
                  example_header example_records 0%nat example_loaded
                  eq_refl eq_refl eq_refl))) "service_hours" _ _).
  - unfold example_header. rewrite !elem_of_cons. tauto.
  - done.
Defined.
